(** * colorize: hex colours to terminal escape codes

    A shallow embedding of [colorize.go] (package [colorize]) and the
    properties of its colour pipeline: hex validation, conversion to an
    RGB triple, reduction to the Xterm 256-colour palette, escape-code
    generation and the text formatter built on top of them.

    Conventions of the embedding.
    - A Go [string] is a byte sequence: Rocq's [string] (a list of
      [ascii], one per byte).  [len] is [String.length].
    - [uint8] and [uint64] values are [Z] with the wrap-around written out.
    - [float64] is IEEE 754 binary64, through the executable operations of
      [SpecFloat] at precision 53 and maximal exponent 1024.
    - A [*color] is an [option color]: [None] is the nil pointer.  A colour
      object is never written after its allocation, so a pointer is
      modelled by the value it points to.
    - The package-level variables [trueColor], [xTerm] and [colorPtr] are
      the fields of [globals], threaded through every function.
    - A Go [error] is modelled by its category (and, for a hex error, the
      offending input), not by its rendered message.
    - [map[string]string] is a [gmap string string]; a missing key reads
      as the empty string, as in Go. *)

From stdpp Require Import base strings gmap list.
From Stdlib Require Import ZArith QArith Qround Lia Bool Ascii String List.
From Stdlib Require Import Floats.SpecFloat.
From Stdlib Require Import DecimalString.
Import ListNotations.

Local Open Scope string_scope.
Local Open Scope Z_scope.

(* ================================================================== *)
(** * Machine integers *)

Module Uint.

(** Conversion to [uint8]: keep the low 8 bits. *)
Definition uint8 (n : Z) : Z := n mod 256.

Definition maxUint64 : Z := 2 ^ 64 - 1.

(** Conversion to [uint64]. *)
Definition uint64 (n : Z) : Z := n mod 2 ^ 64.

(** The values a [uint8] variable can hold. *)
Definition is_uint8 (n : Z) : Prop := 0 <= n <= 255.

End Uint.

(* ================================================================== *)
(** * binary64 arithmetic, [math.Round] and numeric conversions *)

Module Float64.

Definition prec : Z := 53.
Definition emax : Z := 1024.

Definition float64 : Type := spec_float.

(** [float64(n)] for an integer [n]: exact below 2^53. *)
Definition of_Z (n : Z) : float64 := binary_normalize prec emax n 0 false.

Definition add : float64 -> float64 -> float64 := SFadd prec emax.
Definition div : float64 -> float64 -> float64 := SFdiv prec emax.

(** The constant [0.4] converted to [float64]: the nearest double,
    0x3FD999999999999A. *)
Definition c0_4 : float64 := S754_finite false 7205759403792794 (-54).

(** [math.Round]: the nearest integer, halves away from zero.  A finite
    [m * 2^e] with [e >= 0] is an integer already; zeros, infinities and
    NaN are returned as they are. *)
Definition Round (x : float64) : float64 :=
  match x with
  | S754_finite s m (Zneg p) =>
      let q := (Zpos m + 2 ^ (Zpos p - 1)) / 2 ^ Zpos p in
      binary_normalize prec emax (if s then - q else q) 0 s
  | _ => x
  end.

(** The integer part of a finite float (truncation toward zero). *)
Definition trunc (x : float64) : option Z :=
  match x with
  | S754_zero _ => Some 0
  | S754_finite s m e =>
      let a := match e with
               | Zneg p => Zpos m / 2 ^ Zpos p
               | _ => Zpos m * 2 ^ e
               end in
      Some (if s then - a else a)
  | _ => None
  end.

(** [uint8(x)] for a float [x]: the fraction is discarded; when the
    result does not fit the type, Go leaves the value to the
    implementation, which is [None] here. *)
Definition to_uint8 (x : float64) : option Z :=
  match trunc x with
  | Some n => if (0 <=? n) && (n <=? 255) then Some n else None
  | None => None
  end.

End Float64.

(* ================================================================== *)
(** * [fmt]: the verb [%d] *)

Module Fmt.

(** [%d] of an unsigned integer: decimal digits, no padding. *)
Definition d (n : Z) : string := NilZero.string_of_uint (N.to_uint (Z.to_N n)).

End Fmt.

(* ================================================================== *)
(** * [regexp]: the fragment of the syntax that [colorize.go] uses *)

Module Regexp.

Inductive regexp : Type :=
| BeginText                              (* ^   *)
| EndText                                (* $   *)
| Lit (c : ascii)                        (* a literal byte *)
| Class (ranges : list (ascii * ascii))  (* [a-bc-d] *)
| Quest (r : regexp)                     (* r?  (greedy) *)
| Repeat (n : nat) (r : regexp)          (* r{n} *)
| Concat (r1 r2 : regexp)                (* r1r2 *)
| Capture (r : regexp).                  (* (r) *)

Definition byte_le (a b : ascii) : bool := (N_of_ascii a <=? N_of_ascii b)%N.

Definition in_class (ranges : list (ascii * ascii)) (c : ascii) : bool :=
  existsb (fun '(lo, hi) => byte_le lo c && byte_le c hi) ranges.

(** [take n s]: the first [n] bytes of [s]. *)
Fixpoint take (n : nat) (s : string) : string :=
  match n, s with
  | S n', String c s' => String c (take n' s')
  | _, _ => EmptyString
  end.

(** One thread of the matcher: the position reached, the input left and
    the submatches captured so far, in the order of their groups. *)
Definition thread : Type := nat * string * list string.

Definition then_ (ts : list thread) (k : nat -> string -> list thread)
  : list thread :=
  flat_map (fun '(pos, s, caps) =>
              List.map (fun '(pos', s', caps') => (pos', s', (caps ++ caps')%list))
                       (k pos s)) ts.

(** [exec r pos s]: every way [r] matches a prefix of [s], which starts
    at offset [pos] of the text, preferred match first. *)
Fixpoint exec (r : regexp) (pos : nat) (s : string) : list thread :=
  match r with
  | BeginText => match pos with O => [(pos, s, [])] | S _ => [] end
  | EndText => match s with EmptyString => [(pos, s, [])] | String _ _ => [] end
  | Lit c =>
      match s with
      | String c' s' => if Ascii.eqb c' c then [(S pos, s', [])] else []
      | EmptyString => []
      end
  | Class ranges =>
      match s with
      | String c' s' => if in_class ranges c' then [(S pos, s', [])] else []
      | EmptyString => []
      end
  | Quest r' => (exec r' pos s ++ [(pos, s, [])])%list
  | Repeat n r' =>
      (fix rep (n : nat) (pos : nat) (s : string) : list thread :=
         match n with
         | O => [(pos, s, [])]
         | S n' => then_ (exec r' pos s) (rep n')
         end) n pos s
  | Concat r1 r2 => then_ (exec r1 pos s) (exec r2)
  | Capture r' =>
      List.map (fun '(pos', s', caps) => (pos', s', take (pos' - pos)%nat s :: caps))
               (exec r' pos s)
  end.

(** The leftmost match: the first offset at which a thread succeeds.
    The result is the matched text followed by the submatches. *)
Fixpoint find (r : regexp) (pos : nat) (s : string) : option (list string) :=
  match exec r pos s with
  | (pos', _, caps) :: _ => Some (take (pos' - pos)%nat s :: caps)
  | [] =>
      match s with
      | String _ s' => find r (S pos) s'
      | EmptyString => None
      end
  end.

(** [re.FindStringSubmatch(s)]: [None] is the nil slice. *)
Definition FindStringSubmatch (r : regexp) (s : string) : option (list string) :=
  find r 0 s.

(** [re.MatchString(s)]. *)
Definition MatchString (r : regexp) (s : string) : bool :=
  match find r 0 s with Some _ => true | None => false end.

End Regexp.

(* ================================================================== *)
(** * [strconv.ParseUint] for an explicit base and bit size *)

Module Strconv.

Inductive NumError : Type := ErrSyntax | ErrRange.

(** [lower(c)]: [c | ('x' - 'X')]. *)
Definition lower (c : Z) : Z := Z.lor c 32.

(** The value of a digit byte, before it is compared with the base. *)
Definition digit (c : Z) : option Z :=
  if (48 <=? c) && (c <=? 57) then Some (c - 48)
  else if (97 <=? lower c) && (lower c <=? 122) then Some (lower c - 97 + 10)
  else None.

(** The loop over the bytes of the input; [n] is the value so far. *)
Fixpoint digits (base maxVal cutoff : Z) (s : string) (n : Z)
  : Z * option NumError :=
  match s with
  | EmptyString => (n, None)
  | String c s' =>
      match digit (Z.of_N (N_of_ascii c)) with
      | None => (0, Some ErrSyntax)
      | Some d =>
          if d >=? base then (0, Some ErrSyntax)
          else if n >=? cutoff then (maxVal, Some ErrRange)
          else
            let n := Uint.uint64 (n * base) in
            let n1 := Uint.uint64 (n + d) in
            if (n1 <? n) || (n1 >? maxVal) then (maxVal, Some ErrRange)
            else digits base maxVal cutoff s' n1
      end
  end.

(** [ParseUint(s, base, bitSize)] with [2 <= base <= 36] and
    [1 <= bitSize <= 64]: no prefix and no underscore is accepted then. *)
Definition ParseUint (s : string) (base bitSize : Z) : Z * option NumError :=
  match s with
  | EmptyString => (0, Some ErrSyntax)
  | _ =>
      let cutoff := Uint.maxUint64 / base + 1 in
      let maxVal := 2 ^ bitSize - 1 in
      digits base maxVal cutoff s 0
  end.

End Strconv.

(* ================================================================== *)
(** * Statements of a Go function: state, early return, run-time faults *)

Module Go.

(** How a statement ends, inside a function that returns an [R]. *)
Inductive outcome (R A : Type) : Type :=
| Next (a : A)       (* control goes on, with the value [a] *)
| Return (r : R)     (* the function returns [r] *)
| Panic              (* nil dereference, index out of range *)
| Unspecified.       (* a value the language leaves to the implementation *)

Arguments Next {R A} a.
Arguments Return {R A} r.
Arguments Panic {R A}.
Arguments Unspecified {R A}.

Section Stmt.

(** The package-level variables. *)
Context {G : Type}.

Definition stmt (R A : Type) : Type := G -> outcome R A * G.

Definition next {R A} (a : A) : stmt R A := fun st => (Next a, st).
Definition ret {R A} (r : R) : stmt R A := fun st => (Return r, st).
Definition panic {R A} : stmt R A := fun st => (Panic, st).

Definition bind {R A B} (c : stmt R A) (k : A -> stmt R B) : stmt R B :=
  fun st =>
    match c st with
    | (Next a, st') => k a st'
    | (Return r, st') => (Return r, st')
    | (Panic, st') => (Panic, st')
    | (Unspecified, st') => (Unspecified, st')
    end.

(** A call: the value the body returns is the value of the call.  A body
    that runs off its end with [Next r] returns [r]. *)
Definition call {R R'} (body : stmt R R) : stmt R' R :=
  fun st =>
    match body st with
    | (Next r, st') | (Return r, st') => (Next r, st')
    | (Panic, st') => (Panic, st')
    | (Unspecified, st') => (Unspecified, st')
    end.

(** A call from outside the package. *)
Definition run {R} (body : stmt R R) : stmt Empty_set R := call body.

(** [*p]. *)
Definition deref {R A} (p : option A) : stmt R A :=
  match p with Some a => next a | None => panic end.

(** [s[i]] on a slice; the nil slice has no element. *)
Definition index {R A} (s : option (list A)) (i : nat) : stmt R A :=
  match s with
  | Some l => match nth_error l i with Some a => next a | None => panic end
  | None => panic
  end.

(** A conversion whose result the language may leave open. *)
Definition convert {R A} (v : option A) : stmt R A :=
  match v with Some a => next a | None => fun st => (Unspecified, st) end.

Definition load {R A} (field : G -> A) : stmt R A := fun st => (Next (field st), st).
Definition store {R} (upd : G -> G) : stmt R unit := fun st => (Next tt, upd st).

End Stmt.

Arguments stmt : clear implicits.

End Go.

Import Go.

Notation "'let*' x ':=' c 'in' k" := (Go.bind c (fun x => k))
  (at level 10, x pattern, c at level 100, k at level 200).

(* ================================================================== *)
(** * [strings.Builder] *)

Module Builder.

Definition Builder : Type := string.
Definition new : Builder := "".
Definition WriteString (b : Builder) (s : string) : Builder := b ++ s.
Definition String (b : Builder) : string := b.

End Builder.

(* ================================================================== *)
(** * Package [colorize] *)

Module Colorize.

(** ** Types *)

(** The category of an error value, one constructor per place where
    [colorize.go] builds one. *)
Inductive error : Type :=
| NoOptions                (* fmt.Errorf("No options provided") *)
| SYSNOCOLOR               (* "SYSNOCOLOR: System does not support ..." *)
| HEXERR (hex : string).   (* "HEXERR: invalid hex code: <hex>" *)

(** [type ColorContext string]. *)
Definition ColorContext : Type := string.
Definition background : ColorContext := "background".
Definition foreground : ColorContext := "foreground".

Record Options : Type := mkOptions {
  BgColor : string;
  FgColor : string;
  Styles : list string
}.

Record color : Type := mkColor { r : Z; g : Z; b : Z }.

(** ** Constants *)

Definition ESC : ascii := "027"%char.

Definition fgTrueColor : string := String ESC "[38;2;".
Definition bgTrueColor : string := String ESC "[48;2;".
Definition fgXterm : string := String ESC "[38;5;".
Definition bgXterm : string := String ESC "[48;5;".
Definition reset : string := String ESC "[0m".
Definition Reset : string := reset.

(** An integer constant expression: [255 / 5] is 51. *)
Definition scalingFactor : Z := 255 / 5.
Definition xTermBlack : Z := 0.
Definition xTermWhite : Z := 15.
Definition grayOffset : Z := 232.
Definition colorOffset : Z := 16.
Definition colorFactor1 : Z := 36.
Definition colorFactor2 : Z := 6.

(** ** Package-level variables *)

Record globals : Type := mkGlobals {
  trueColor : bool;          (* COLORTERM == "truecolor" *)
  xTerm : bool;              (* TERM == "xterm" *)
  colorPtr : option color
}.

Definition set_colorPtr (p : option color) (st : globals) : globals :=
  mkGlobals (trueColor st) (xTerm st) p.

Definition styles : gmap string string :=
  list_to_map
    [ ("bold", String ESC "[1m");
      ("italic", String ESC "[3m");
      ("underline", String ESC "[4m");
      ("blink", String ESC "[5m");
      ("reverse", String ESC "[7m");
      ("hidden", String ESC "[8m");
      ("stroke", String ESC "[9m") ].

(** [styles[s]]: the zero value for a key that is absent. *)
Definition styles_at (s : string) : string := default "" (styles !! s).

(** [[0-9a-fA-F]]. *)
Definition hexdigit : Regexp.regexp :=
  Regexp.Class [("0", "9"); ("a", "f"); ("A", "F")]%char.

(** [([0-9a-fA-F]{2})]. *)
Definition hexpair : Regexp.regexp := Regexp.Capture (Regexp.Repeat 2 hexdigit).

(** [^#?([0-9a-fA-F]{2})([0-9a-fA-F]{2})([0-9a-fA-F]{2})$]. *)
Definition regex : Regexp.regexp :=
  Regexp.Concat Regexp.BeginText
    (Regexp.Concat (Regexp.Quest (Regexp.Lit "#"))
       (Regexp.Concat hexpair
          (Regexp.Concat hexpair
             (Regexp.Concat hexpair Regexp.EndText)))).

Definition fn (R : Type) : Type := stmt globals R R.

(** ** Hex validation and conversion *)

Definition validateHex (hex : string) : fn (option error) :=
  if negb (Regexp.MatchString regex hex) then
    ret (Some (HEXERR hex))
  else
    ret None.

Definition getColor (hex : string) : fn (option color * option error) :=
  let* err := call (validateHex hex) in
  match err with
  | Some _ => ret (None, err)
  | None =>
      let match_ := Regexp.FindStringSubmatch regex hex in
      let* m1 := index match_ 1 in
      let '(r, _) := Strconv.ParseUint m1 16 8 in
      let* m2 := index match_ 2 in
      let '(g, _) := Strconv.ParseUint m2 16 8 in
      let* m3 := index match_ 3 in
      let '(b, _) := Strconv.ParseUint m3 16 8 in
      let* _ := store (set_colorPtr
                         (Some (mkColor (Uint.uint8 r) (Uint.uint8 g) (Uint.uint8 b)))) in
      let* p := load colorPtr in
      ret (p, None)
  end.

(** ** Escape codes *)

Definition getTCCode (col : option color) (ctx : ColorContext) : fn string :=
  let* c := deref col in
  if String.eqb ctx background then
    ret (bgTrueColor ++ Fmt.d (r c) ++ ";" ++ Fmt.d (g c) ++ ";" ++ Fmt.d (b c) ++ "m")
  else
    ret (fgTrueColor ++ Fmt.d (r c) ++ ";" ++ Fmt.d (g c) ++ ";" ++ Fmt.d (b c) ++ "m").

(** [uint8(math.Round((float64(c) / scalingFactor) + 0.4))], the
    expression that [rgbToXterm] evaluates on each channel. *)
Definition bucket (c : Z) : option Z :=
  Float64.to_uint8
    (Float64.Round
       (Float64.add (Float64.div (Float64.of_Z c) (Float64.of_Z scalingFactor))
                    Float64.c0_4)).

Definition rgbToXterm (col : option color) : fn Z :=
  let xtCode := Uint.uint8 0 in
  let* c := deref col in
  let* rInt := convert (bucket (r c)) in
  let* gInt := convert (bucket (g c)) in
  let* bInt := convert (bucket (b c)) in
  let xtCode :=
    if (rInt =? gInt) && (gInt =? bInt) then
      if rInt =? 0 then xTermBlack
      else if rInt =? 5 then xTermWhite
      else Uint.uint8 (grayOffset + Uint.uint8 (Uint.uint8 (rInt - 1) * 5))
    else
      Uint.uint8 (Uint.uint8 (Uint.uint8 (colorOffset + Uint.uint8 (colorFactor1 * rInt))
                              + Uint.uint8 (colorFactor2 * gInt))
                  + bInt) in
  ret xtCode.

Definition getXTCode (col : option color) (ctx : ColorContext) : fn string :=
  if String.eqb ctx background then
    let* n := call (rgbToXterm col) in
    ret (bgXterm ++ Fmt.d n ++ "m")
  else
    let* n := call (rgbToXterm col) in
    ret (fgXterm ++ Fmt.d n ++ "m").

Definition GetColor (hex : string) (ctx : ColorContext) : fn (string * option error) :=
  let code := "" in
  let* (colorPtr, err) := call (getColor hex) in
  match err with
  | Some _ => ret (code, err)
  | None =>
      (* set code based on system support *)
      let* tc := load trueColor in
      if tc then
        let* code := call (getTCCode colorPtr ctx) in
        ret (code, err)
      else
        let* xt := load xTerm in
        if xt then
          let* code := call (getXTCode colorPtr ctx) in
          ret (code, err)
        else
          ret (code, Some SYSNOCOLOR)
  end.

(** ** The formatter *)

Definition FormatText (text : string) (options : option Options)
  : fn (string * option error) :=
  let builder := Builder.new in
  (* no options provided *)
  if match options with
     | None => true
     | Some o =>
         String.eqb (BgColor o) "" && String.eqb (FgColor o) ""
         && (List.length (Styles o) =? 0)%nat
     end
  then ret (text, Some NoOptions)
  else
  let* o := deref options in
  (* no system support *)
  let* tc := load trueColor in
  let* xt := load xTerm in
  if negb tc && negb xt then ret (text, Some SYSNOCOLOR)
  else
  (* options provided *)
  let builder :=
    if (0 <? List.length (Styles o))%nat then
      fold_left (fun bld s => Builder.WriteString bld (styles_at s)) (Styles o) builder
    else builder in
  let* builder :=
    if tc then
      let* builder :=
        if negb (String.eqb (BgColor o) "") then
          let* (bgColor, err) := call (getColor (BgColor o)) in
          match err with
          | Some _ => ret (text, err)   (* HEXERR *)
          | None =>
              let* code := call (getTCCode bgColor background) in
              next (Builder.WriteString builder code)
          end
        else next builder in
      if negb (String.eqb (FgColor o) "") then
        let* (fgColor, err) := call (getColor (FgColor o)) in
        match err with
        | Some _ => ret (text, err)
        | None =>
            let* code := call (getTCCode fgColor foreground) in
            next (Builder.WriteString builder code)
        end
      else next builder
    else
      (* xTerm *)
      let* builder :=
        if negb (String.eqb (BgColor o) "") then
          let* (bgColor, err) := call (getColor (BgColor o)) in
          match err with
          | Some _ => ret (text, err)
          | None =>
              let* code := call (getXTCode bgColor background) in
              next (Builder.WriteString builder code)
          end
        else next builder in
      if negb (String.eqb (FgColor o) "") then
        let* (fgColor, err) := call (getColor (FgColor o)) in
        match err with
        | Some _ => ret (text, err)
        | None =>
            let* code := call (getXTCode fgColor foreground) in
            next (Builder.WriteString builder code)
        end
      else next builder in
  let builder := Builder.WriteString builder text in
  if (String.length (Builder.String builder) =? String.length text)%nat then
    ret (Builder.String builder, None)
  else
    let builder := Builder.WriteString builder reset in
    ret (Builder.String builder, None).

Definition ForegroundText (text : string) (color : string)
  : fn (string * option error) :=
  let* res := call (FormatText text (Some (mkOptions "" color []))) in
  ret res.

Definition BackgroundText (text : string) (color : string)
  : fn (string * option error) :=
  let* res := call (FormatText text (Some (mkOptions color "" []))) in
  ret res.

Definition StyleText (text : string) (styles : list string) : fn string :=
  let* (t, _) := call (FormatText text (Some (mkOptions "" "" styles))) in
  ret t.

End Colorize.

(* ================================================================== *)
(** * The specification's own formulas

    These definitions follow the words of the specification, not the
    code; the theorems below compare the two. *)

Module Spec.

(** A hexadecimal digit, in either case. *)
Definition is_hex_digit (c : ascii) : bool :=
  let n := N_of_ascii c in
  ((48 <=? n) && (n <=? 57) || (97 <=? n) && (n <=? 102)
   || (65 <=? n) && (n <=? 70))%N.

(** Its value in base 16. *)
Definition hex_value (c : ascii) : Z :=
  let n := Z.of_N (N_of_ascii c) in
  if n <=? 57 then n - 48          (* '0'..'9' *)
  else if n <=? 70 then n - 65 + 10  (* 'A'..'F' *)
  else n - 97 + 10.                (* 'a'..'f' *)

(** The input without its optional leading [#]. *)
Definition strip_hash (s : string) : string :=
  match s with
  | String c s' => if Ascii.eqb c "#" then s' else s
  | EmptyString => s
  end.

(** Exactly [n] hexadecimal digits. *)
Fixpoint hex_digits (n : nat) (s : string) : bool :=
  match n, s with
  | O, EmptyString => true
  | S n', String c s' => is_hex_digit c && hex_digits n' s'
  | _, _ => false
  end.

(** [^#?[0-9a-fA-F]{6}$]. *)
Definition hex_pattern (s : string) : bool := hex_digits 6 (strip_hash s).

(** The byte written by two hexadecimal digits. *)
Definition hex_byte (hi lo : ascii) : Z := 16 * hex_value hi + hex_value lo.

(** The byte triple implied by the digits: the three 2-digit groups,
    each read in base 16. *)
Definition triple (s : string) : option (Z * Z * Z) :=
  match strip_hash s with
  | String a (String b (String c (String d (String e (String f EmptyString))))) =>
      Some (hex_byte a b, hex_byte c d, hex_byte e f)
  | _ => None
  end.

(** Rounding to the nearest integer, halves away from zero. *)
Definition round (q : Q) : Z :=
  if Qle_bool 0 q then Qfloor (q + (1 # 2)) else Qceiling (q - (1 # 2)).

Definition clamp (lo hi x : Z) : Z := Z.max lo (Z.min hi x).

(** [round(c / 42.5 + 0.4)], clamped into [0,5]. *)
Definition level_42_5 (c : Z) : Z :=
  clamp 0 5 (round (inject_Z c / (85 # 2) + (4 # 10))).

(** [round(c / 51 + 0.4)]. *)
Definition level_51 (c : Z) : Z := round (inject_Z c / (51 # 1) + (4 # 10)).

(** The palette index of three levels, in unbounded arithmetic: the
    grayscale branch when the levels are equal, the colour cube
    otherwise. *)
Definition xterm_index (lr lg lb : Z) : Z :=
  if (lr =? lg) && (lg =? lb) then
    if lr =? 0 then 0
    else if lr =? 5 then 15
    else 232 + (lr - 1) * 5
  else 16 + 36 * lr + 6 * lg + lb.

(** The codes of the requested styles, in the order given; an unknown
    style contributes nothing. *)
Fixpoint style_codes (names : list string) : string :=
  match names with
  | [] => ""
  | name :: rest => Colorize.styles_at name ++ style_codes rest
  end.

(** The escape code of a colour: [ESC[38;2;R;G;Bm] or [ESC[48;2;R;G;Bm]
    under true colour, [ESC[38;5;Nm] or [ESC[48;5;Nm] under 256 colours,
    with [N] the reduced index. *)
Definition emit (trueColor bg : bool) (rgb : Z * Z * Z) : string :=
  let '(r, g, b) := rgb in
  if trueColor then
    String "027" (if bg then "[48;2;" else "[38;2;")
    ++ Fmt.d r ++ ";" ++ Fmt.d g ++ ";" ++ Fmt.d b ++ "m"
  else
    String "027" (if bg then "[48;5;" else "[38;5;")
    ++ Fmt.d (xterm_index (level_51 r) (level_51 g) (level_51 b)) ++ "m".

(** The code of a colour option: nothing when no colour is requested. *)
Definition color_code (trueColor bg : bool) (hex : string) : string :=
  if String.eqb hex "" then ""
  else match triple hex with
       | Some rgb => emit trueColor bg rgb
       | None => ""
       end.

(** Everything that is written before the text. *)
Definition prefix (trueColor : bool) (o : Colorize.Options) : string :=
  style_codes (Colorize.Styles o)
  ++ color_code trueColor true (Colorize.BgColor o)
  ++ color_code trueColor false (Colorize.FgColor o).

(** The formatted text: the reset code follows the text when a code
    precedes it. *)
Definition format_output (trueColor : bool) (text : string) (o : Colorize.Options)
  : string :=
  if String.eqb (prefix trueColor o) "" then text
  else prefix trueColor o ++ text ++ String "027" "[0m".

(** No background, no foreground, no styles (or no options at all). *)
Definition no_options (options : option Colorize.Options) : bool :=
  match options with
  | None => true
  | Some o =>
      String.eqb (Colorize.BgColor o) "" && String.eqb (Colorize.FgColor o) ""
      && match Colorize.Styles o with [] => true | _ :: _ => false end
  end.

(** A colour is requested and its hex string is invalid. *)
Definition bad_color (hex : string) : bool :=
  negb (String.eqb hex "") && negb (hex_pattern hex).

(** The error of a formatting call: the three conditions, in order. *)
Definition format_error (trueColor xTerm : bool) (options : option Colorize.Options)
  : option Colorize.error :=
  match options with
  | None => Some Colorize.NoOptions
  | Some o =>
      if no_options options then Some Colorize.NoOptions
      else if negb trueColor && negb xTerm then Some Colorize.SYSNOCOLOR
      else if bad_color (Colorize.BgColor o) then Some (Colorize.HEXERR (Colorize.BgColor o))
      else if bad_color (Colorize.FgColor o) then Some (Colorize.HEXERR (Colorize.FgColor o))
      else None
  end.

End Spec.

(* ================================================================== *)
(** * The error type of the package *)

Module Errors.

(** [type colorizeErr struct { name string; msg string }]. *)
Record colorizeErr : Type := mkColorizeErr { name : string; msg : string }.

(** [newColorizeErr(name, msg)]: a pointer to a new value. *)
Definition newColorizeErr (name msg : string)
  : stmt Colorize.globals (option colorizeErr) (option colorizeErr) :=
  ret (Some (mkColorizeErr name msg)).

(** [(e *colorizeErr) Error()]: [fmt.Sprintf("%s: %s", e.name, e.msg)]. *)
Definition Error (e : option colorizeErr) : stmt Colorize.globals string string :=
  let* v := deref e in
  ret (name v ++ ": " ++ msg v).

(** [newColorizeErr(name, msg).Error()]. *)
Definition render (name msg : string) : stmt Colorize.globals string string :=
  let* e := call (newColorizeErr name msg) in
  let* s := call (Error e) in
  ret s.

End Errors.

(* ================================================================== *)
(** * Upper case of the hexadecimal letters *)

Module Case.

(** [a]..[f] become [A]..[F]; every other byte is kept. *)
Definition upper (c : ascii) : ascii :=
  let n := N_of_ascii c in
  if ((97 <=? n) && (n <=? 102))%N then ascii_of_N (n - 32) else c.

Fixpoint upper_string (s : string) : string :=
  match s with
  | EmptyString => EmptyString
  | String c s' => String (upper c) (upper_string s')
  end.

End Case.

Module Aux.

(** The six levels and their triples. *)
Definition levels : list Z := [0; 1; 2; 3; 4; 5].

Definition level_triples : list (Z * Z * Z) :=
  flat_map (fun lr => flat_map (fun lg => List.map (fun lb => (lr, lg, lb)) levels) levels)
           levels.

(** A terminal with true colour only. *)
Definition truecolor_only : Colorize.globals := Colorize.mkGlobals true false None.

(** The flags of two states agree. *)
Definition same_flags (st st' : Colorize.globals) : Prop :=
  Colorize.trueColor st' = Colorize.trueColor st
  /\ Colorize.xTerm st' = Colorize.xTerm st.

(** The package variables after one colour option of [FormatText]. *)
Definition color_state (hex : string) (st : Colorize.globals) : Colorize.globals :=
  if String.eqb hex "" then st
  else if Spec.hex_pattern hex then
    match Spec.triple hex with
    | Some (rr, gg, bb) => Colorize.set_colorPtr (Some (Colorize.mkColor rr gg bb)) st
    | None => st
    end
  else st.

(** The package variables after [FormatText]. *)
Definition format_state (options : option Colorize.Options) (st : Colorize.globals)
  : Colorize.globals :=
  match options with
  | None => st
  | Some o =>
      if Spec.no_options options then st
      else if negb (Colorize.trueColor st) && negb (Colorize.xTerm st) then st
      else if Spec.bad_color (Colorize.BgColor o) then st
      else color_state (Colorize.FgColor o) (color_state (Colorize.BgColor o) st)
  end.

End Aux.

(* ================================================================== *)
(** * Definitions used by the proofs *)

Module Enum.

(** Every value of a [uint8], and every byte of a string. *)
Definition all_bytes : list Z := List.map Z.of_nat (seq 0 256).
Definition all_ascii : list ascii := List.map ascii_of_nat (seq 0 256).

End Enum.

Module Inv.

(** The invariant of the type [color]: three [uint8] fields. *)
Definition valid_color (col : Colorize.color) : Prop :=
  Uint.is_uint8 (Colorize.r col) /\ Uint.is_uint8 (Colorize.g col)
  /\ Uint.is_uint8 (Colorize.b col).

(** Sample values of the package variables. *)
Definition xterm_term : Colorize.globals := Colorize.mkGlobals false true None.
Definition both_term : Colorize.globals := Colorize.mkGlobals true true None.
Definition dumb_term : Colorize.globals := Colorize.mkGlobals false false None.

End Inv.

Module Steps.

Import Colorize.

(** One colour option of [FormatText]: the statement that validates the
    colour and writes its code, or returns the text with the error. *)
Definition color_step (tc bg : bool) (text hex : string) (builder : Builder.Builder)
  : stmt globals (string * option error) Builder.Builder :=
  if negb (String.eqb hex "") then
    let* (col, err) := call (getColor hex) in
    match err with
    | Some _ => ret (text, err)
    | None =>
        let* code := call ((if tc then getTCCode else getXTCode) col
                             (if bg then background else foreground)) in
        next (Builder.WriteString builder code)
    end
  else next builder.

End Steps.

Module Groups.

(** The two-byte groups of a string. *)
Fixpoint pairs (s : string) : list string :=
  match s with
  | String a (String b s') => String a (String b EmptyString) :: pairs s'
  | _ => []
  end.

(** The part of [Colorize.regex] after the optional [#]. *)
Definition tail : Regexp.regexp :=
  Regexp.Concat Colorize.hexpair
    (Regexp.Concat Colorize.hexpair
       (Regexp.Concat Colorize.hexpair Regexp.EndText)).

End Groups.

(* ================================================================== *)
(** * Checking a property on every byte *)

Section Enumeration.

Import Enum.

Lemma In_all_bytes (c : Z) : Uint.is_uint8 c -> In c all_bytes.
Proof.
  intros [Hlo Hhi]. unfold all_bytes.
  rewrite <- (Z2Nat.id c) by exact Hlo.
  apply in_map, in_seq. lia.
Qed.

Lemma In_all_ascii (c : ascii) : In c all_ascii.
Proof.
  unfold all_ascii. rewrite <- (ascii_nat_embedding c).
  apply in_map, in_seq. pose proof (nat_ascii_bounded c). lia.
Qed.

Lemma forall_bytes (P : Z -> bool) :
  forallb P all_bytes = true -> forall c, Uint.is_uint8 c -> P c = true.
Proof.
  intros H c Hc. rewrite forallb_forall in H. apply H, In_all_bytes, Hc.
Qed.

Lemma forall_ascii (P : ascii -> bool) :
  forallb P all_ascii = true -> forall c, P c = true.
Proof.
  intros H c. rewrite forallb_forall in H. apply H, In_all_ascii.
Qed.

End Enumeration.

(** The constant [0.4] of the code is the correctly rounded quotient 2/5. *)
Lemma c0_4_nearest :
  Float64.div (Float64.of_Z 2) (Float64.of_Z 5) = Float64.c0_4.
Proof. vm_compute. reflexivity. Qed.

(** [float64(scalingFactor)] is the double 51. *)
Lemma scalingFactor_51 :
  Float64.of_Z Colorize.scalingFactor = S754_finite false 7177611906121728 (-47)
  /\ 7177611906121728 = 51 * 2 ^ 47.
Proof. split; vm_compute; reflexivity. Qed.

Module RegexFacts.
Import Regexp Colorize Enum Groups.

#[local] Arguments in_class : simpl never.

Lemma in_class_hexdigit (c : ascii) :
  in_class [("0", "9"); ("a", "f"); ("A", "F")]%char c = Spec.is_hex_digit c.
Proof.
  apply Bool.eqb_prop.
  apply (forall_ascii (fun c => Bool.eqb (in_class _ c) (Spec.is_hex_digit c))).
  vm_compute. reflexivity.
Qed.

Lemma hash_not_hex (c : ascii) : Ascii.eqb c "#" = true -> Spec.is_hex_digit c = false.
Proof. intros H. apply Ascii.eqb_eq in H. subst c. reflexivity. Qed.

Lemma exec_concat r1 r2 pos s :
  exec (Concat r1 r2) pos s = then_ (exec r1 pos s) (exec r2).
Proof. reflexivity. Qed.

Lemma then_one pos s caps k :
  then_ [(pos, s, caps)] k
  = List.map (fun '(pos', s', caps') => (pos', s', (caps ++ caps')%list)) (k pos s).
Proof. unfold then_. simpl. apply app_nil_r. Qed.

Lemma exec_hexpair pos s :
  exec hexpair pos s =
    match s with
    | String a (String b s') =>
        if Spec.is_hex_digit a && Spec.is_hex_digit b
        then [(S (S pos), s', [String a (String b EmptyString)])]
        else []
    | _ => []
    end.
Proof.
  destruct s as [|a [|b s']]; simpl; try reflexivity;
    rewrite in_class_hexdigit;
    (destruct (Spec.is_hex_digit a); [|reflexivity]); simpl; [reflexivity|].
  rewrite in_class_hexdigit.
  destruct (Spec.is_hex_digit b); [|reflexivity].
  simpl. replace (S (S pos) - pos)%nat with 2%nat by lia. reflexivity.
Qed.

Lemma exec_tail pos s :
  exec tail pos s =
    if Spec.hex_digits 6 s then [((6 + pos)%nat, EmptyString, pairs s)] else [].
Proof.
  unfold tail. rewrite exec_concat, exec_hexpair.
  destruct s as [|a [|b s]]; try reflexivity.
  1:{ simpl. destruct (Spec.is_hex_digit a); reflexivity. }
  cbn [Spec.hex_digits pairs].
  destruct (Spec.is_hex_digit a); [|reflexivity].
  destruct (Spec.is_hex_digit b); [|reflexivity].
  cbn [andb]. rewrite then_one, exec_concat, exec_hexpair.
  destruct s as [|c [|d s]]; try reflexivity.
  1:{ simpl. destruct (Spec.is_hex_digit c); reflexivity. }
  cbn [Spec.hex_digits pairs].
  destruct (Spec.is_hex_digit c); [|reflexivity].
  destruct (Spec.is_hex_digit d); [|reflexivity].
  cbn [andb]. rewrite then_one, exec_concat, exec_hexpair.
  destruct s as [|e [|f s]]; try reflexivity.
  1:{ simpl. destruct (Spec.is_hex_digit e); reflexivity. }
  cbn [Spec.hex_digits pairs].
  destruct (Spec.is_hex_digit e); [|reflexivity].
  destruct (Spec.is_hex_digit f); [|reflexivity].
  cbn [andb]. rewrite then_one.
  destruct s; reflexivity.
Qed.
End RegexFacts.

Module HexFacts.
Import Regexp Colorize Enum Groups RegexFacts.

Lemma find_off (s : string) : forall pos, find regex (S pos) s = None.
Proof.
  induction s as [|c s IH]; intros pos; [reflexivity|].
  simpl. apply IH.
Qed.

Lemma hex_digits_length (n : nat) :
  forall s, Spec.hex_digits n s = true -> String.length s = n.
Proof.
  induction n as [|n IH]; intros [|c s] H; simpl in H; try discriminate.
  - reflexivity.
  - apply andb_true_iff in H as [_ H]. simpl. f_equal. apply IH, H.
Qed.

Lemma take_all (s : string) : take (String.length s) s = s.
Proof. induction s as [|c s IH]; simpl; [reflexivity | f_equal; exact IH]. Qed.

Lemma exec_regex (s : string) :
  exec regex 0 s =
    if Spec.hex_pattern s
    then [(String.length s, EmptyString, pairs (Spec.strip_hash s))]
    else [].
Proof.
  unfold regex. fold tail.
  rewrite exec_concat. cbn [exec]. rewrite then_one.
  unfold Spec.hex_pattern.
  destruct s as [|c s].
  - reflexivity.
  - cbn [Spec.strip_hash]. destruct (Ascii.eqb c "#") eqn:Hc.
    + assert (Hno : Spec.hex_digits 6 (String c s) = false).
      { cbn [Spec.hex_digits]. rewrite (hash_not_hex _ Hc). reflexivity. }
      cbn [app then_ flat_map]. rewrite !exec_tail, Hno.
      cbn [map]. rewrite !app_nil_r.
      destruct (Spec.hex_digits 6 s) eqn:Hs; [|reflexivity].
      apply hex_digits_length in Hs. simpl. rewrite Hs. reflexivity.
    + cbn [app]. rewrite then_one, exec_tail.
      destruct (Spec.hex_digits 6 (String c s)) eqn:Hs; [|reflexivity].
      apply hex_digits_length in Hs. rewrite Hs. reflexivity.
Qed.

(** What the regular expression of the package finds. *)
Lemma find_regex (s : string) :
  find regex 0 s =
    if Spec.hex_pattern s then Some (s :: pairs (Spec.strip_hash s)) else None.
Proof.
  destruct s as [|c s]; [reflexivity|].
  unfold find; fold find. rewrite exec_regex, find_off.
  destruct (Spec.hex_pattern (String c s)); [|reflexivity].
  rewrite Nat.sub_0_r, take_all. reflexivity.
Qed.

Lemma MatchString_regex (s : string) :
  MatchString regex s = Spec.hex_pattern s.
Proof. unfold MatchString. rewrite find_regex. destruct (Spec.hex_pattern s); reflexivity. Qed.

(** [ParseUint] on a group of two hexadecimal digits. *)
Lemma ParseUint_pair (a b : ascii) :
  Spec.is_hex_digit a = true -> Spec.is_hex_digit b = true ->
  Strconv.ParseUint (String a (String b EmptyString)) 16 8
  = (Spec.hex_byte a b, None).
Proof.
  intros Ha Hb.
  pose (ok := fun a b : ascii =>
    implb (Spec.is_hex_digit a && Spec.is_hex_digit b)
      (match Strconv.ParseUint (String a (String b EmptyString)) 16 8 with
       | (n, None) => n =? Spec.hex_byte a b
       | _ => false
       end)).
  assert (H : ok a b = true).
  { apply (forall_ascii (fun b => ok a b)).
    apply (forall_ascii (fun a => forallb (fun b => ok a b) all_ascii)).
    vm_compute. reflexivity. }
  unfold ok in H. rewrite Ha, Hb in H. cbn [andb implb] in H.
  destruct (Strconv.ParseUint _ 16 8) as [n [e|]]; [discriminate|].
  apply Z.eqb_eq in H. subst n. reflexivity.
Qed.

Lemma hex_byte_range (a b : ascii) :
  Spec.is_hex_digit a = true -> Spec.is_hex_digit b = true ->
  Uint.is_uint8 (Spec.hex_byte a b).
Proof.
  intros Ha Hb.
  pose (ok := fun a b : ascii =>
    implb (Spec.is_hex_digit a && Spec.is_hex_digit b)
          ((0 <=? Spec.hex_byte a b) && (Spec.hex_byte a b <=? 255))).
  assert (H : ok a b = true).
  { apply (forall_ascii (fun b => ok a b)).
    apply (forall_ascii (fun a => forallb (fun b => ok a b) all_ascii)).
    vm_compute. reflexivity. }
  unfold ok in H. rewrite Ha, Hb in H. cbn [andb implb] in H.
  unfold Uint.is_uint8. lia.
Qed.

End HexFacts.

Module GetColorFacts.
Import Regexp Colorize Enum Groups RegexFacts HexFacts.

Lemma hex_digits_6_inv (s : string) :
  Spec.hex_digits 6 s = true ->
  exists a b c d e f,
    s = String a (String b (String c (String d (String e (String f EmptyString)))))
    /\ Spec.is_hex_digit a = true /\ Spec.is_hex_digit b = true
    /\ Spec.is_hex_digit c = true /\ Spec.is_hex_digit d = true
    /\ Spec.is_hex_digit e = true /\ Spec.is_hex_digit f = true.
Proof.
  intros H.
  destruct s as [|a [|b [|c [|d [|e [|f [|x s]]]]]]]; simpl in H;
    rewrite ?andb_false_r in H; try discriminate.
  repeat (apply andb_true_iff in H as [? H]).
  exists a, b, c, d, e, f. repeat split; assumption.
Qed.

Lemma uint8_small (n : Z) : Uint.is_uint8 n -> Uint.uint8 n = n.
Proof. unfold Uint.is_uint8, Uint.uint8. intros H. apply Z.mod_small. lia. Qed.

(** The triple of a string that matches the pattern. *)
Lemma triple_of_pattern (hex : string) :
  Spec.hex_pattern hex = true ->
  exists rr gg bb,
    Spec.triple hex = Some (rr, gg, bb)
    /\ Uint.is_uint8 rr /\ Uint.is_uint8 gg /\ Uint.is_uint8 bb.
Proof.
  unfold Spec.hex_pattern, Spec.triple. intros H.
  destruct (hex_digits_6_inv _ H) as (a & b & c & d & e & f & -> & Ha & Hb & Hc & Hd & He & Hf).
  eexists _, _, _. split; [reflexivity|].
  repeat split; apply hex_byte_range; assumption.
Qed.

(** [getColor] on any input, in any calling function. *)
Lemma call_getColor {R' : Type} (hex : string) (st : globals) :
  @call globals _ R' (getColor hex) st =
    if Spec.hex_pattern hex then
      match Spec.triple hex with
      | Some (rr, gg, bb) =>
          (Next (Some (mkColor rr gg bb), None),
           set_colorPtr (Some (mkColor rr gg bb)) st)
      | None => (Panic, st)
      end
    else (Next (None, Some (HEXERR hex)), st).
Proof.
  unfold getColor, validateHex, FindStringSubmatch, call at 1, bind.
  unfold call. rewrite MatchString_regex, find_regex.
  destruct (Spec.hex_pattern hex) eqn:Hp; [|reflexivity].
  unfold Spec.hex_pattern in Hp. unfold Spec.triple.
  destruct (hex_digits_6_inv _ Hp) as (a & b & c & d & e & f & -> & Ha & Hb & Hc & Hd & He & Hf).
  cbn [negb ret pairs index nth_error next].
  rewrite !ParseUint_pair by assumption.
  cbn [store load ret colorPtr set_colorPtr].
  rewrite !uint8_small by (apply hex_byte_range; assumption).
  reflexivity.
Qed.

Lemma call_getColor_bad {R' : Type} (hex : string) (st : globals) :
  Spec.hex_pattern hex = false ->
  @call globals _ R' (getColor hex) st = (Next (None, Some (HEXERR hex)), st).
Proof. intros H. rewrite call_getColor, H. reflexivity. Qed.

Lemma call_getColor_good {R' : Type} (hex : string) (st : globals) :
  Spec.hex_pattern hex = true ->
  exists rr gg bb,
    Spec.triple hex = Some (rr, gg, bb)
    /\ Uint.is_uint8 rr /\ Uint.is_uint8 gg /\ Uint.is_uint8 bb
    /\ @call globals _ R' (getColor hex) st
       = (Next (Some (mkColor rr gg bb), None),
          set_colorPtr (Some (mkColor rr gg bb)) st).
Proof.
  intros H. destruct (triple_of_pattern _ H) as (rr & gg & bb & Ht & Hr & Hg & Hb).
  exists rr, gg, bb. rewrite call_getColor, H, Ht. auto.
Qed.

End GetColorFacts.

(* ================================================================== *)
(** * The palette reduction *)

Module XtermFacts.
Import Colorize Enum Inv GetColorFacts.

(** On every byte the floating-point expression of the code yields the
    exactly rounded level, which lies in [0,5]. *)
Lemma bucket_byte (c : Z) :
  Uint.is_uint8 c ->
  bucket c = Some (Spec.level_51 c) /\ 0 <= Spec.level_51 c <= 5.
Proof.
  intros Hc.
  pose (ok := fun c : Z =>
    match bucket c with
    | Some l => (l =? Spec.level_51 c) && (0 <=? l) && (l <=? 5)
    | None => false
    end).
  assert (H : ok c = true).
  { apply (forall_bytes ok); [vm_compute; reflexivity | exact Hc]. }
  unfold ok in H. destruct (bucket c) as [l|]; [|discriminate].
  apply andb_true_iff in H as [H H5]. apply andb_true_iff in H as [H H0].
  apply Z.eqb_eq in H. subst l. split; [reflexivity | lia].
Qed.

Lemma bucket_range (c l : Z) :
  Uint.is_uint8 c -> bucket c = Some l -> 0 <= l <= 5.
Proof.
  intros Hc Hl. destruct (bucket_byte c Hc) as [Hb Hr].
  rewrite Hb in Hl. injection Hl as <-. exact Hr.
Qed.

Ltac enum_level l H :=
  assert (l = 0 \/ l = 1 \/ l = 2 \/ l = 3 \/ l = 4 \/ l = 5) as
    [-> | [-> | [-> | [-> | [-> | ->]]]]] by lia; clear H.

(** [rgbToXterm] from the three levels: its [uint8] arithmetic never
    wraps, so the result is the index computed in [Z]. *)
Lemma call_rgbToXterm {R' : Type} (col : color) (st : globals) (lr lg lb : Z) :
  bucket (r col) = Some lr -> bucket (g col) = Some lg -> bucket (b col) = Some lb ->
  0 <= lr <= 5 -> 0 <= lg <= 5 -> 0 <= lb <= 5 ->
  @call globals _ R' (rgbToXterm (Some col)) st
  = (Next (Spec.xterm_index lr lg lb), st).
Proof.
  intros Hr Hg Hb Br Bg Bb.
  unfold rgbToXterm, call, bind, deref, next, convert.
  rewrite Hr, Hg, Hb. cbn [ret].
  enum_level lr Br; enum_level lg Bg; enum_level lb Bb; reflexivity.
Qed.

Lemma call_rgbToXterm_valid {R' : Type} (col : color) (st : globals) :
  valid_color col ->
  @call globals _ R' (rgbToXterm (Some col)) st
  = (Next (Spec.xterm_index (Spec.level_51 (r col)) (Spec.level_51 (g col))
                            (Spec.level_51 (b col))), st).
Proof.
  intros (Hr & Hg & Hb).
  destruct (bucket_byte _ Hr), (bucket_byte _ Hg), (bucket_byte _ Hb).
  apply call_rgbToXterm; assumption.
Qed.

End XtermFacts.

(* ================================================================== *)
(** * Properties of [rgbToXterm] *)

Section Palette.

Import Colorize Inv XtermFacts.

Variable st : globals.

(** C1, amended.  For every channel value [c] of a colour, the bucket
    level that [rgbToXterm] computes is [round(c / 51 + 0.4)], rounded to
    the nearest integer: the scaling factor is 255/5 = 51, not 42.5.  The
    level lies in [0,5] as it is, so clamping it into that range changes
    nothing. *)
Theorem C1_bucket_level (c : Z) :
  Uint.is_uint8 c ->
  bucket c = Some (Spec.level_51 c)
  /\ Spec.clamp 0 5 (Spec.level_51 c) = Spec.level_51 c.
Proof.
  intros Hc. destruct (bucket_byte c Hc) as [Hb Hr]. split; [exact Hb|].
  unfold Spec.clamp. lia.
Qed.

(** C2, amended.  When the three bucket levels of a colour are equal,
    [rgbToXterm] returns 0 for level 0, 15 for level 5 and
    [232 + (level-1)*5] for the levels between, so the index is one of
    0, 232, 237, 242, 247, 15.  Pure black gives 0 and pure white 15.  A
    gray [r = g = b = c] gives 0 when [c <= 5], 15 when [c >= 210], and
    one of 232, 237, 242, 247 when [6 <= c <= 209]. *)
Theorem C2_grayscale_branch (col : color) (l : Z) :
  valid_color col ->
  bucket (r col) = Some l -> bucket (g col) = Some l -> bucket (b col) = Some l ->
  let idx := if l =? 0 then 0 else if l =? 5 then 15 else 232 + (l - 1) * 5 in
  run (rgbToXterm (Some col)) st = (Next idx, st)
  /\ In idx [0; 232; 237; 242; 247; 15]
  /\ (col = mkColor 0 0 0 -> idx = 0)
  /\ (col = mkColor 255 255 255 -> idx = 15)
  /\ (r col = g col -> g col = b col ->
      (r col <= 5 -> idx = 0)
      /\ (210 <= r col -> idx = 15)
      /\ (6 <= r col <= 209 -> In idx [232; 237; 242; 247])).
Proof.
  intros (Vr & Vg & Vb) Hr Hg Hb idx.
  pose proof (bucket_range _ _ Vr Hr) as Hl.
  split.
  { unfold run. rewrite (call_rgbToXterm col st l l l) by assumption.
    unfold Spec.xterm_index. rewrite !Z.eqb_refl. reflexivity. }
  split.
  { subst idx. enum_level l Hl; simpl; auto 10. }
  split.
  { intros ->. simpl in Hr. vm_compute in Hr. injection Hr as <-. reflexivity. }
  split.
  { intros ->. simpl in Hr. vm_compute in Hr. injection Hr as <-. reflexivity. }
  intros _ _.
  destruct (bucket_byte _ Vr) as [Hb' _]. rewrite Hb' in Hr. injection Hr as Hr.
  pose (ok := fun c : Z =>
    let i := if Spec.level_51 c =? 0 then 0
             else if Spec.level_51 c =? 5 then 15
             else 232 + (Spec.level_51 c - 1) * 5 in
    implb (c <=? 5) (i =? 0) && implb (210 <=? c) (i =? 15)
    && implb ((6 <=? c) && (c <=? 209))
         ((i =? 232) || (i =? 237) || (i =? 242) || (i =? 247))).
  assert (H : ok (r col) = true).
  { apply (forall_bytes ok); [vm_compute; reflexivity | exact Vr]. }
  unfold ok in H. rewrite Hr in H. fold idx in H.
  apply andb_true_iff in H as [H H3]. apply andb_true_iff in H as [H1 H2].
  repeat split.
  - intros Hc. apply Z.leb_le in Hc. rewrite Hc in H1. simpl in H1. lia.
  - intros Hc. apply Z.leb_le in Hc. rewrite Hc in H2. simpl in H2. lia.
  - intros [Hc1 Hc2]. apply Z.leb_le in Hc1, Hc2. rewrite Hc1, Hc2 in H3.
    simpl in H3. simpl. lia.
Qed.

(** C3.  When the three bucket levels of a colour are not all equal,
    [rgbToXterm] returns the colour-cube index
    [16 + 36*levelR + 6*levelG + levelB]. *)
Theorem C3_color_cube_branch (col : color) (lr lg lb : Z) :
  valid_color col ->
  bucket (r col) = Some lr -> bucket (g col) = Some lg -> bucket (b col) = Some lb ->
  ~ (lr = lg /\ lg = lb) ->
  run (rgbToXterm (Some col)) st = (Next (16 + 36 * lr + 6 * lg + lb), st).
Proof.
  intros (Vr & Vg & Vb) Hr Hg Hb Hne.
  pose proof (bucket_range _ _ Vr Hr). pose proof (bucket_range _ _ Vg Hg).
  pose proof (bucket_range _ _ Vb Hb).
  unfold run. rewrite (call_rgbToXterm col st lr lg lb) by assumption.
  unfold Spec.xterm_index.
  destruct ((lr =? lg) && (lg =? lb)) eqn:E; [|reflexivity].
  apply andb_true_iff in E as [E1 E2]. apply Z.eqb_eq in E1, E2. tauto.
Qed.

(** C9.  For every colour with components in [0,255], [rgbToXterm]
    returns a value and its [uint8] arithmetic never wraps, although no
    level is clamped: each level is [round(c/51 + 0.4)], at most 5, and
    the result is the index computed in unbounded arithmetic, which is 0,
    15 or one of 232, 237, 242, 247 on the grayscale branch and lies in
    [16,231] on the colour branch. *)
Theorem C9_rgbToXterm_total (col : color) :
  valid_color col ->
  exists lr lg lb idx,
    bucket (r col) = Some lr /\ bucket (g col) = Some lg /\ bucket (b col) = Some lb
    /\ lr = Spec.level_51 (r col) /\ lg = Spec.level_51 (g col)
    /\ lb = Spec.level_51 (b col)
    /\ 0 <= lr <= 5 /\ 0 <= lg <= 5 /\ 0 <= lb <= 5
    /\ run (rgbToXterm (Some col)) st = (Next idx, st)
    /\ idx = Spec.xterm_index lr lg lb
    /\ (lr = lg /\ lg = lb -> In idx [0; 15; 232; 237; 242; 247])
    /\ (~ (lr = lg /\ lg = lb) -> idx = 16 + 36 * lr + 6 * lg + lb /\ 16 <= idx <= 231).
Proof.
  intros (Vr & Vg & Vb).
  destruct (bucket_byte _ Vr) as [Hr Br], (bucket_byte _ Vg) as [Hg Bg],
    (bucket_byte _ Vb) as [Hb Bb].
  set (lr := Spec.level_51 (r col)) in *.
  set (lg := Spec.level_51 (g col)) in *.
  set (lb := Spec.level_51 (b col)) in *.
  exists lr, lg, lb, (Spec.xterm_index lr lg lb).
  do 9 (split; [first [assumption | reflexivity]|]).
  split; [unfold run; apply call_rgbToXterm; assumption|].
  split; [reflexivity|].
  clearbody lr lg lb. unfold Spec.xterm_index. split.
  - intros [<- <-]. rewrite !Z.eqb_refl. enum_level lr Br; simpl; auto 10.
  - intros Hne.
    destruct ((lr =? lg) && (lg =? lb)) eqn:E.
    + apply andb_true_iff in E as [E1 E2]. apply Z.eqb_eq in E1, E2. tauto.
    + lia.
Qed.

End Palette.

(* ================================================================== *)
(** * The escape codes and the formatter *)

#[local] Arguments String.append !s1 s2.

Module FormatFacts.
Import Colorize Inv Steps GetColorFacts XtermFacts.

Lemma append_assoc (a b c : string) : (a ++ b) ++ c = a ++ (b ++ c).
Proof. induction a as [|x a IH]; simpl; [reflexivity | f_equal; exact IH]. Qed.

Lemma append_nil_r (a : string) : a ++ "" = a.
Proof. induction a as [|x a IH]; simpl; [reflexivity | f_equal; exact IH]. Qed.

Lemma length_append (a b : string) :
  String.length (a ++ b) = (String.length a + String.length b)%nat.
Proof. induction a as [|x a IH]; simpl; [reflexivity | f_equal; exact IH]. Qed.

(** The test that decides whether the reset code is written. *)
Lemma same_length_iff_empty (pre text : string) :
  (String.length (pre ++ text) =? String.length text)%nat = String.eqb pre "".
Proof.
  rewrite length_append. destruct pre as [|x pre]; cbn [String.length String.eqb Nat.add].
  - apply Nat.eqb_refl.
  - apply Nat.eqb_neq. lia.
Qed.

(** The loop over the requested styles. *)
Lemma write_styles (names : list string) :
  forall acc,
    fold_left (fun bld s => Builder.WriteString bld (styles_at s)) names acc
    = acc ++ Spec.style_codes names.
Proof.
  induction names as [|name rest IH]; intros acc; cbn [fold_left Spec.style_codes].
  - symmetry. apply append_nil_r.
  - rewrite IH. unfold Builder.WriteString. apply append_assoc.
Qed.

Lemma call_getTCCode {R' : Type} (col : color) (bg : bool) (st : globals) :
  @call globals _ R' (getTCCode (Some col) (if bg then background else foreground)) st
  = (Next (Spec.emit true bg (r col, g col, b col)), st).
Proof. destruct bg; reflexivity. Qed.

Lemma call_getXTCode {R' : Type} (col : color) (bg : bool) (st : globals) :
  valid_color col ->
  @call globals _ R' (getXTCode (Some col) (if bg then background else foreground)) st
  = (Next (Spec.emit false bg (r col, g col, b col)), st).
Proof.
  intros Hv. unfold getXTCode.
  destruct bg; cbn [String.eqb Ascii.eqb Bool.eqb background foreground andb];
    unfold call at 1, bind; rewrite (call_rgbToXterm_valid col st Hv); reflexivity.
Qed.

Lemma color_step_run (tc bg : bool) (text hex : string) (builder : string)
      (st : globals) :
  exists st',
    trueColor st' = trueColor st /\ xTerm st' = xTerm st
    /\ color_step tc bg text hex builder st
       = (if Spec.bad_color hex then Return (text, Some (HEXERR hex))
          else Next (builder ++ Spec.color_code tc bg hex), st').
Proof.
  unfold color_step, Spec.bad_color, Spec.color_code.
  destruct (String.eqb hex "") eqn:He; cbn [negb andb].
  { exists st. rewrite append_nil_r. auto. }
  unfold bind. destruct (Spec.hex_pattern hex) eqn:Hp; cbn [negb].
  - destruct (call_getColor_good (R' := string * option error) hex st Hp)
      as (rr & gg & bb & Ht & Hr & Hg & Hb & Hc).
    rewrite Hc, Ht. eexists. split; [|split]; [| |
      destruct tc;
      [ rewrite (call_getTCCode (mkColor rr gg bb) bg)
      | rewrite (call_getXTCode (mkColor rr gg bb) bg) by (split; [|split]; assumption) ];
      reflexivity ]; reflexivity.
  - rewrite (call_getColor_bad hex st Hp). exists st. auto.
Qed.


(** ** Running a sequence of statements *)

Lemma call_bind_assoc {R R' A B : Type} (c : stmt globals R A)
      (k1 : A -> stmt globals R B) (k2 : B -> stmt globals R R) (st : globals) :
  @call globals R R' (bind (bind c k1) k2) st
  = call (bind c (fun a => bind (k1 a) k2)) st.
Proof. unfold call, bind. destruct (c st) as [[a | res | |] st']; reflexivity. Qed.

Lemma call_bind_next {R R' A : Type} (c : stmt globals R A) (k : A -> stmt globals R R)
      (st st' : globals) (a : A) :
  c st = (Next a, st') -> @call globals R R' (bind c k) st = call (k a) st'.
Proof. intros H. unfold call, bind. rewrite H. reflexivity. Qed.

Lemma call_bind_return {R R' A : Type} (c : stmt globals R A) (k : A -> stmt globals R R)
      (st st' : globals) (res : R) :
  c st = (Return res, st') -> @call globals R R' (bind c k) st = (Next res, st').
Proof. intros H. unfold call, bind. rewrite H. reflexivity. Qed.

Lemma styles_builder (names : list string) :
  (if (0 <? List.length names)%nat
   then fold_left (fun bld s => Builder.WriteString bld (styles_at s)) names Builder.new
   else Builder.new) = Spec.style_codes names.
Proof.
  destruct names as [|name rest]; [reflexivity|].
  cbn [List.length Nat.ltb Nat.leb]. rewrite write_styles. reflexivity.
Qed.

Lemma no_options_code (o : Options) :
  (String.eqb (BgColor o) "" && String.eqb (FgColor o) ""
   && (List.length (Styles o) =? 0)%nat) = Spec.no_options (Some o).
Proof. unfold Spec.no_options. destruct (Styles o); reflexivity. Qed.

(** The last statements of [FormatText]. *)
Lemma finish_run {R' : Type} (text pre : string) (st : globals) :
  @call globals _ R'
    (let builder := Builder.WriteString pre text in
     if (String.length (Builder.String builder) =? String.length text)%nat
     then ret (Builder.String builder, @None error)
     else
       let builder := Builder.WriteString builder reset in
       ret (Builder.String builder, None)) st
  = (Next (if String.eqb pre "" then text else pre ++ text ++ reset, None), st).
Proof.
  cbv zeta. unfold Builder.WriteString, Builder.String.
  rewrite same_length_iff_empty.
  destruct (String.eqb_spec pre "") as [-> | _]; [reflexivity|].
  unfold call, ret. rewrite append_assoc. reflexivity.
Qed.

(** What [FormatText] returns, on every input. *)
Lemma call_FormatText {R' : Type} (text : string) (options : option Options)
      (st : globals) :
  exists st',
    @call globals _ R' (FormatText text options) st =
      (Next (match Spec.format_error (trueColor st) (xTerm st) options with
             | Some e => (text, Some e)
             | None =>
                 match options with
                 | Some o => (Spec.format_output (trueColor st) text o, None)
                 | None => (text, None)
                 end
             end), st').
Proof.
  destruct options as [o|]; [|exists st; reflexivity].
  unfold FormatText, Spec.format_error. rewrite no_options_code.
  destruct (Spec.no_options (Some o)); [exists st; reflexivity|].
  cbn [deref]. unfold call at 1.
  change (bind (next o) ?k st) with (k o st). cbv beta.
  change (bind (load trueColor) ?k st) with (k (trueColor st) st). cbv beta.
  change (bind (load xTerm) ?k st) with (k (xTerm st) st). cbv beta.
  destruct (negb (trueColor st) && negb (xTerm st)) eqn:Hcap; [exists st; reflexivity|].
  cbv zeta. rewrite styles_builder.
  match goal with
  | |- context [match ?body st with _ => _ end] =>
      change (match body st with
              | (Next res, st') | (Return res, st') => (Next res, st')
              | (Panic, st') => (Panic, st')
              | (Unspecified, st') => (Unspecified, st')
              end) with (@call globals _ R' body st)
  end.
  assert (Hsteps : forall tc,
    exists st',
      @call globals _ R'
        (let* builder :=
           (let* builder := color_step tc true text (BgColor o)
                              (Spec.style_codes (Styles o)) in
            color_step tc false text (FgColor o) builder) in
         let builder := Builder.WriteString builder text in
         if (String.length (Builder.String builder) =? String.length text)%nat
         then ret (Builder.String builder, None)
         else
           let builder := Builder.WriteString builder reset in
           ret (Builder.String builder, None)) st
      = (Next (if Spec.bad_color (BgColor o) then (text, Some (HEXERR (BgColor o)))
               else if Spec.bad_color (FgColor o) then (text, Some (HEXERR (FgColor o)))
               else (Spec.format_output tc text o, None)), st')).
  { intros tc. rewrite call_bind_assoc.
    destruct (color_step_run tc true text (BgColor o) (Spec.style_codes (Styles o)) st)
      as (st1 & _ & _ & E1).
    destruct (Spec.bad_color (BgColor o)).
    { exists st1. apply (call_bind_return _ _ _ _ _ E1). }
    rewrite (call_bind_next _ _ _ _ _ E1).
    match goal with
    | |- context [color_step tc false text (FgColor o) ?b] =>
        destruct (color_step_run tc false text (FgColor o) b st1) as (st2 & _ & _ & E2)
    end.
    destruct (Spec.bad_color (FgColor o)).
    { exists st2. apply (call_bind_return _ _ _ _ _ E2). }
    rewrite (call_bind_next _ _ _ _ _ E2).
    exists st2. rewrite finish_run. unfold Spec.format_output, Spec.prefix.
    rewrite !append_assoc. reflexivity. }
  destruct (trueColor st) eqn:Htc.
  - destruct (Hsteps true) as (st' & E). exists st'.
    etransitivity; [exact E|].
    destruct (Spec.bad_color (BgColor o)), (Spec.bad_color (FgColor o)); reflexivity.
  - destruct (Hsteps false) as (st' & E). exists st'.
    etransitivity; [exact E|].
    destruct (Spec.bad_color (BgColor o)), (Spec.bad_color (FgColor o)); reflexivity.
Qed.

End FormatFacts.

Module WrapperFacts.
Import Colorize Inv GetColorFacts XtermFacts FormatFacts.

Lemma FormatText_no_options (text : string) (options : option Options) (st : globals) :
  Spec.no_options options = true ->
  run (FormatText text options) st = (Next (text, Some NoOptions), st).
Proof.
  intros H. destruct options as [o|]; [|reflexivity].
  unfold run, FormatText. rewrite no_options_code, H. reflexivity.
Qed.

Lemma FormatText_no_support (text : string) (options : option Options) (st : globals) :
  Spec.no_options options = false ->
  trueColor st = false -> xTerm st = false ->
  run (FormatText text options) st = (Next (text, Some SYSNOCOLOR), st).
Proof.
  intros H Ht Hx. destruct options as [o|]; [|discriminate].
  unfold run, FormatText. rewrite no_options_code, H.
  cbn [deref]. unfold call.
  change (bind (next o) ?k st) with (k o st). cbv beta.
  change (bind (load trueColor) ?k st) with (k (trueColor st) st). cbv beta.
  change (bind (load xTerm) ?k st) with (k (xTerm st) st). cbv beta.
  rewrite Ht, Hx. reflexivity.
Qed.

Lemma run_ForegroundText (text hex : string) (st : globals) :
  run (ForegroundText text hex) st
  = run (FormatText text (Some (mkOptions "" hex []))) st.
Proof.
  unfold run, ForegroundText, bind, call.
  destruct (FormatText text _ st) as [[res | res | |] st']; reflexivity.
Qed.

Lemma run_BackgroundText (text hex : string) (st : globals) :
  run (BackgroundText text hex) st
  = run (FormatText text (Some (mkOptions hex "" []))) st.
Proof.
  unfold run, BackgroundText, bind, call.
  destruct (FormatText text _ st) as [[res | res | |] st']; reflexivity.
Qed.

Lemma run_StyleText (text : string) (names : list string) (st : globals) :
  exists st',
    run (StyleText text names) st
    = (Next (match Spec.format_error (trueColor st) (xTerm st)
                     (Some (mkOptions "" "" names)) with
             | Some _ => text
             | None => Spec.format_output (trueColor st) text (mkOptions "" "" names)
             end), st').
Proof.
  destruct (call_FormatText (R' := string) text (Some (mkOptions "" "" names)) st)
    as (st' & E).
  exists st'. unfold run, StyleText. unfold call at 1, bind. rewrite E.
  destruct (Spec.format_error _ _ _); reflexivity.
Qed.

Lemma run_GetColor (hex : string) (bg : bool) (st : globals) :
  run (GetColor hex (if bg then background else foreground)) st =
    if Spec.hex_pattern hex then
      match Spec.triple hex with
      | Some (rr, gg, bb) =>
          (Next (if trueColor st then (Spec.emit true bg (rr, gg, bb), None)
                 else if xTerm st then (Spec.emit false bg (rr, gg, bb), None)
                 else ("", Some SYSNOCOLOR)),
           set_colorPtr (Some (mkColor rr gg bb)) st)
      | None => (Panic, st)
      end
    else (Next ("", Some (HEXERR hex)), st).
Proof.
  unfold run, GetColor. unfold call at 1, bind.
  destruct (Spec.hex_pattern hex) eqn:Hp.
  - destruct (call_getColor_good (R' := string * option error) hex st Hp)
      as (rr & gg & bb & Ht & Hr & Hg & Hb & Hc).
    rewrite Hc, Ht. cbn [load trueColor xTerm set_colorPtr].
    destruct (trueColor st).
    + rewrite (call_getTCCode (mkColor rr gg bb) bg). reflexivity.
    + cbn [load xTerm set_colorPtr]. destruct (xTerm st); [|reflexivity].
      rewrite (call_getXTCode (mkColor rr gg bb) bg) by (split; [|split]; assumption).
      reflexivity.
  - rewrite (call_getColor_bad hex st Hp). reflexivity.
Qed.

(** [GetColor] rejects an invalid hex string whatever the context. *)
Lemma run_GetColor_bad (hex : string) (ctx : ColorContext) (st : globals) :
  Spec.hex_pattern hex = false ->
  run (GetColor hex ctx) st = (Next ("", Some (HEXERR hex)), st).
Proof.
  intros Hp. unfold run, GetColor. unfold call at 1, bind.
  rewrite (call_getColor_bad hex st Hp). reflexivity.
Qed.

(** ** When the prefix is empty *)

Lemma styles_nonempty (name code : string) :
  styles !! name = Some code -> code <> "".
Proof.
  assert (H : map_Forall (fun _ code => code <> "") styles).
  { apply (bool_decide_unpack _). vm_compute. exact I. }
  apply H.
Qed.

Lemma append_empty (a b : string) : a ++ b = "" <-> a = "" /\ b = "".
Proof.
  split.
  - destruct a; simpl; [auto | discriminate].
  - intros [-> ->]. reflexivity.
Qed.

Lemma style_codes_empty (names : list string) :
  Spec.style_codes names = "" <-> Forall (fun s => styles !! s = None) names.
Proof.
  induction names as [|name rest IH]; simpl.
  - split; [constructor | reflexivity].
  - rewrite append_empty, IH. unfold styles_at. split.
    + intros [Hn Hr]. constructor; [|exact Hr].
      destruct (styles !! name) as [code|] eqn:E; [|reflexivity].
      exfalso. exact (styles_nonempty _ _ E Hn).
    + intros H. inversion H as [|? ? Hn Hr]; subst. rewrite Hn. auto.
Qed.

Lemma emit_nonempty (tc bg : bool) (rgb : Z * Z * Z) : Spec.emit tc bg rgb <> "".
Proof. destruct rgb as [[rr gg] bb], tc, bg; discriminate. Qed.

Lemma color_code_empty (tc bg : bool) (hex : string) :
  Spec.bad_color hex = false ->
  (Spec.color_code tc bg hex = "" <-> hex = "").
Proof.
  unfold Spec.bad_color, Spec.color_code. intros Hb.
  destruct (String.eqb hex "") eqn:He.
  - apply String.eqb_eq in He. tauto.
  - apply String.eqb_neq in He.
    cbn [negb andb] in Hb. apply negb_false_iff in Hb.
    destruct (triple_of_pattern _ Hb) as (rr & gg & bb & -> & _).
    split; [intros H; exfalso; exact (emit_nonempty _ _ _ H) | tauto].
Qed.

End WrapperFacts.

(* ================================================================== *)
(** * Properties of the validator and of the formatter *)

Section Formatter.

Import Colorize Inv GetColorFacts XtermFacts FormatFacts WrapperFacts.

Variable st : globals.

Lemma getColor_ok_inv (hex : string) (col : color) :
  fst (run (getColor hex) st) = Next (Some col, None) ->
  Spec.hex_pattern hex = true
  /\ Spec.triple hex = Some (r col, g col, b col)
  /\ valid_color col.
Proof.
  unfold run. rewrite call_getColor. intros H.
  destruct (Spec.hex_pattern hex) eqn:Hp; [|discriminate].
  destruct (triple_of_pattern _ Hp) as (rr & gg & bb & Ht & Hr & Hg & Hb).
  rewrite Ht in H. cbn [fst] in H. injection H as <-.
  repeat split; first [exact Ht | apply Hr | apply Hg | apply Hb].
Qed.

Lemma pattern_not_empty (hex : string) :
  Spec.hex_pattern hex = true -> String.eqb hex "" = false.
Proof. destruct hex; [discriminate | reflexivity]. Qed.

(** C4.  For every valid hex colour and every text: when the true-colour
    flag is set, whatever the 256-colour flag, [FormatText] with only a
    foreground colour returns [ESC[38;2;R;G;Bm], the text and [ESC[0m],
    with R, G, B in decimal, and ["#FF0000"] gives
    [ESC[38;2;255;0;0m]; when only the 256-colour flag is set, the code
    is [ESC[38;5;Nm] for a foreground and [ESC[48;5;Nm] for a background,
    with N the index that [rgbToXterm] returns, which is the palette index
    of the three levels [round(c/51 + 0.4)] of the colour: 196 for
    ["#FF0000"]. *)
Theorem C4_color_codes (text hex : string) (col : color) :
  fst (run (getColor hex) st) = Next (Some col, None) ->
  (trueColor st = true ->
   fst (run (FormatText text (Some (mkOptions "" hex []))) st)
   = Next ((String "027" "[38;2;" ++ Fmt.d (r col) ++ ";" ++ Fmt.d (g col) ++ ";"
            ++ Fmt.d (b col) ++ "m") ++ text ++ String "027" "[0m", None))
  /\ (trueColor st = true -> hex = "#FF0000" ->
      fst (run (FormatText text (Some (mkOptions "" hex []))) st)
      = Next (String "027" "[38;2;255;0;0m" ++ text ++ String "027" "[0m", None))
  /\ (trueColor st = false -> xTerm st = true ->
      exists n,
        n = Spec.xterm_index (Spec.level_51 (r col)) (Spec.level_51 (g col))
                             (Spec.level_51 (b col))
        /\ run (rgbToXterm (Some col)) st = (Next n, st)
        /\ fst (run (FormatText text (Some (mkOptions "" hex []))) st)
           = Next ((String "027" "[38;5;" ++ Fmt.d n ++ "m")
                   ++ text ++ String "027" "[0m", None)
        /\ fst (run (FormatText text (Some (mkOptions hex "" []))) st)
           = Next ((String "027" "[48;5;" ++ Fmt.d n ++ "m")
                   ++ text ++ String "027" "[0m", None)
        /\ fst (run (GetColor hex foreground) st)
           = Next (String "027" "[38;5;" ++ Fmt.d n ++ "m", None)
        /\ fst (run (GetColor hex background) st)
           = Next (String "027" "[48;5;" ++ Fmt.d n ++ "m", None))
  /\ (trueColor st = false -> xTerm st = true -> hex = "#FF0000" ->
      fst (run (FormatText text (Some (mkOptions "" hex []))) st)
      = Next (String "027" "[38;5;196m" ++ text ++ String "027" "[0m", None)
      /\ fst (run (FormatText text (Some (mkOptions hex "" []))) st)
         = Next (String "027" "[48;5;196m" ++ text ++ String "027" "[0m", None)).
Proof.
  intros Hok. destruct (getColor_ok_inv _ _ Hok) as (Hp & Ht & Hv).
  pose proof (pattern_not_empty _ Hp) as Hne.
  destruct col as [cr cg cb]. cbn [r g b] in *.
  assert (Hfg : forall tc xt, negb tc && negb xt = false ->
            Spec.format_error tc xt (Some (mkOptions "" hex [])) = None).
  { intros tc xt Hc. unfold Spec.format_error, Spec.no_options, Spec.bad_color.
    cbn [BgColor FgColor Styles String.eqb andb negb].
    rewrite Hne, Hc, Hp. reflexivity. }
  assert (Hbg : forall tc xt, negb tc && negb xt = false ->
            Spec.format_error tc xt (Some (mkOptions hex "" [])) = None).
  { intros tc xt Hc. unfold Spec.format_error, Spec.no_options, Spec.bad_color.
    cbn [BgColor FgColor Styles String.eqb andb negb].
    rewrite Hne, Hc, Hp. reflexivity. }
  assert (Hout : forall tc, Spec.format_output tc text (mkOptions "" hex [])
            = Spec.emit tc false (cr, cg, cb) ++ text ++ String "027" "[0m").
  { intros tc. unfold Spec.format_output, Spec.prefix, Spec.color_code.
    cbn [BgColor FgColor Styles Spec.style_codes String.eqb String.append].
    rewrite Hne, Ht. destruct tc; reflexivity. }
  assert (Hout' : forall tc, Spec.format_output tc text (mkOptions hex "" [])
            = Spec.emit tc true (cr, cg, cb) ++ text ++ String "027" "[0m").
  { intros tc. unfold Spec.format_output, Spec.prefix, Spec.color_code.
    cbn [BgColor FgColor Styles Spec.style_codes String.eqb String.append].
    rewrite Hne, Ht, append_nil_r. destruct tc; reflexivity. }
  destruct (call_FormatText (R' := Empty_set) text (Some (mkOptions "" hex [])) st)
    as (st1 & E1).
  destruct (call_FormatText (R' := Empty_set) text (Some (mkOptions hex "" [])) st)
    as (st2 & E2).
  unfold run. rewrite E1, E2. cbn [fst].
  split; [|split; [|split]].
  - intros Htc. rewrite Htc, Hfg, Hout by reflexivity. reflexivity.
  - intros Htc ->. rewrite Htc, Hfg, Hout by reflexivity.
    vm_compute in Ht. injection Ht as <- <- <-. reflexivity.
  - intros Htc Hxt. rewrite Htc, Hxt, Hfg, Hbg, Hout, Hout' by reflexivity.
    exists (Spec.xterm_index (Spec.level_51 cr) (Spec.level_51 cg) (Spec.level_51 cb)).
    split; [reflexivity|].
    split; [apply (call_rgbToXterm_valid _ st Hv)|].
    split; [reflexivity|]. split; [reflexivity|].
    pose proof (run_GetColor hex false st) as Gf.
    pose proof (run_GetColor hex true st) as Gb.
    unfold run in Gf, Gb. cbn [background foreground] in Gf, Gb.
    rewrite Gf, Gb, Hp, Ht, Htc, Hxt. split; reflexivity.
  - intros Htc Hxt ->. rewrite Htc, Hxt, Hfg, Hbg, Hout, Hout' by reflexivity.
    vm_compute in Ht. injection Ht as <- <- <-. split; vm_compute; reflexivity.
Qed.

(** C5.  Hex validation succeeds on exactly the strings that match
    [^#?[0-9a-fA-F]{6}$].  On a matching string [getColor] returns the
    byte triple of the three 2-digit groups read in base 16 (and
    ["#12AB34"] gives (18,171,52)); on any other string (["FF00"],
    ["#FF00000"], ["#FF000H"]) [validateHex] and [getColor] return the
    invalid-hex error, [getColor] returns no colour and [colorPtr] keeps
    its value. *)
Theorem C5_hex_validation (hex : string) :
  Regexp.MatchString regex hex = Spec.hex_pattern hex
  /\ (if Spec.hex_pattern hex then
        exists rr gg bb,
          Spec.triple hex = Some (rr, gg, bb)
          /\ Uint.is_uint8 rr /\ Uint.is_uint8 gg /\ Uint.is_uint8 bb
          /\ run (validateHex hex) st = (Next None, st)
          /\ run (getColor hex) st
             = (Next (Some (mkColor rr gg bb), None),
                set_colorPtr (Some (mkColor rr gg bb)) st)
      else
        run (validateHex hex) st = (Next (Some (HEXERR hex)), st)
        /\ run (getColor hex) st = (Next (None, Some (HEXERR hex)), st))
  /\ run (getColor "#12AB34") st
     = (Next (Some (mkColor 18 171 52), None),
        set_colorPtr (Some (mkColor 18 171 52)) st)
  /\ Spec.hex_pattern "FF00" = false
  /\ Spec.hex_pattern "#FF00000" = false
  /\ Spec.hex_pattern "#FF000H" = false.
Proof.
  split; [apply HexFacts.MatchString_regex|].
  split; [|split; [|repeat split]].
  - destruct (Spec.hex_pattern hex) eqn:Hp.
    + destruct (call_getColor_good (R' := Empty_set) hex st Hp)
        as (rr & gg & bb & Ht & Hr & Hg & Hb & Hc).
      exists rr, gg, bb. do 4 (split; [assumption|]).
      split; [|exact Hc].
      unfold run, call, validateHex. rewrite HexFacts.MatchString_regex, Hp. reflexivity.
    + split; [|apply (call_getColor_bad hex st Hp)].
      unfold run, call, validateHex. rewrite HexFacts.MatchString_regex, Hp. reflexivity.
  - unfold run. rewrite call_getColor. reflexivity.
Qed.

(** C6.  [FormatText] returns an error exactly when one of these holds,
    tested in this order: (1) the options are nil or empty, which gives
    the no-options error; (2) neither the true-colour flag nor the
    256-colour flag is set, which gives the unsupported-terminal error;
    (3) a requested background or foreground hex string is invalid,
    which gives the invalid-hex error.  So empty options give the
    no-options error, and options that are not empty, with no capability,
    give the unsupported-terminal error and the text as it was. *)
Theorem C6_error_conditions (text : string) (options : option Options) :
  (exists out st',
     run (FormatText text options) st
     = (Next (out, Spec.format_error (trueColor st) (xTerm st) options), st'))
  /\ (Spec.format_error (trueColor st) (xTerm st) options <> None <->
      Spec.no_options options = true
      \/ (trueColor st = false /\ xTerm st = false)
      \/ exists o, options = Some o
                   /\ (Spec.bad_color (BgColor o) = true
                       \/ Spec.bad_color (FgColor o) = true))
  /\ (Spec.no_options options = true ->
      run (FormatText text options) st = (Next (text, Some NoOptions), st))
  /\ (Spec.no_options options = false -> trueColor st = false -> xTerm st = false ->
      run (FormatText text options) st = (Next (text, Some SYSNOCOLOR), st))
  /\ run (FormatText text None) st = (Next (text, Some NoOptions), st)
  /\ run (FormatText text (Some (mkOptions "" "" []))) st
     = (Next (text, Some NoOptions), st).
Proof.
  split.
  { destruct (call_FormatText (R' := Empty_set) text options st) as (st' & E).
    unfold run. rewrite E.
    destruct (Spec.format_error _ _ options) as [e|] eqn:Ee.
    - exists text, st'. reflexivity.
    - destruct options as [o|]; [|discriminate]. eexists _, st'. reflexivity. }
  split.
  { unfold Spec.format_error. destruct options as [o|].
    - destruct (Spec.no_options (Some o)); [split; [auto | discriminate]|].
      destruct (trueColor st), (xTerm st); cbn [negb andb];
        try (split; [auto | discriminate]);
        destruct (Spec.bad_color (BgColor o)) eqn:Eb;
        try (split; [eauto 6 | discriminate]);
        destruct (Spec.bad_color (FgColor o)) eqn:Ef;
        try (split; [eauto 6 | discriminate]);
        (split; [congruence|]);
        intros [H | [[H1 H2] | (o' & Ho & [H | H])]]; try discriminate;
        injection Ho as <-; congruence.
    - split; [auto | discriminate]. }
  split; [apply FormatText_no_options|].
  split; [apply FormatText_no_support|].
  split; apply FormatText_no_options; reflexivity.
Qed.

(** C7.  Whenever [FormatText] returns an error, also an invalid-hex
    error found after the style codes were written to the builder, the
    string returned with it is the input text, unformatted. *)
Theorem C7_error_returns_text (text : string) (options : option Options)
        (out : string) (e : error) (st' : globals) :
  run (FormatText text options) st = (Next (out, Some e), st') ->
  out = text.
Proof.
  destruct (call_FormatText (R' := Empty_set) text options st) as (st1 & E).
  unfold run. rewrite E. intros H.
  destruct (Spec.format_error _ _ options) as [e'|].
  - injection H as <- _ _. reflexivity.
  - destruct options; discriminate.
Qed.

(** The reset code follows the text exactly when a code precedes it. *)
Lemma reset_iff_prefixed (text : string) (o : Options) (out : string)
      (st' : globals) :
  run (FormatText text (Some o)) st = (Next (out, None), st') ->
  exists pre,
    pre = Spec.prefix (trueColor st) o
    /\ (pre = "" <->
        Forall (fun s => styles !! s = None) (Styles o)
        /\ BgColor o = "" /\ FgColor o = "")
    /\ (pre = "" -> out = text)
    /\ (pre <> "" -> out = pre ++ text ++ reset).
Proof.
  destruct (call_FormatText (R' := Empty_set) text (Some o) st) as (st1 & E).
  unfold run. rewrite E. intros H.
  destruct (Spec.format_error _ _ (Some o)) as [e'|] eqn:Ee; [discriminate|].
  injection H as <- _.
  assert (Hb : Spec.bad_color (BgColor o) = false
               /\ Spec.bad_color (FgColor o) = false).
  { unfold Spec.format_error in Ee.
    destruct (Spec.no_options (Some o)); [discriminate|].
    destruct (negb (trueColor st) && negb (xTerm st)); [discriminate|].
    destruct (Spec.bad_color (BgColor o)); [discriminate|].
    destruct (Spec.bad_color (FgColor o)); [discriminate|]. auto. }
  destruct Hb as [Hbg Hfg].
  exists (Spec.prefix (trueColor st) o). split; [reflexivity|].
  split.
  { unfold Spec.prefix. rewrite !append_empty, style_codes_empty,
      (color_code_empty _ _ _ Hbg), (color_code_empty _ _ _ Hfg). tauto. }
  unfold Spec.format_output. split.
  - intros ->. reflexivity.
  - intros Hne. apply String.eqb_neq in Hne. rewrite Hne. reflexivity.
Qed.

(** A request for unknown styles only, with a capability. *)
Lemma unknown_styles_only (text : string) (names : list string) :
  names <> [] ->
  Forall (fun s => styles !! s = None) names ->
  negb (trueColor st) && negb (xTerm st) = false ->
  exists st', run (FormatText text (Some (mkOptions "" "" names))) st
              = (Next (text, None), st').
Proof.
  intros Hne Hun Hcap.
  destruct (call_FormatText (R' := Empty_set) text (Some (mkOptions "" "" names)) st)
    as (st1 & E).
  exists st1. unfold run. rewrite E.
  unfold Spec.format_error, Spec.no_options, Spec.format_output, Spec.prefix.
  cbn [BgColor FgColor Styles String.eqb andb].
  destruct names as [|name rest]; [congruence|].
  rewrite Hcap. cbn [Spec.bad_color String.eqb negb andb Spec.color_code].
  apply style_codes_empty in Hun. rewrite Hun. reflexivity.
Qed.

Lemma StyleText_invalid_style (text : string) :
  fst (run (StyleText text ["invalid-style"]) st) = Next text.
Proof.
  destruct (run_StyleText text ["invalid-style"] st) as (st1 & E).
  rewrite E. cbn [fst]. f_equal.
  unfold Spec.format_error, Spec.no_options, Spec.format_output, Spec.prefix.
  cbn [BgColor FgColor Styles String.eqb andb].
  destruct (negb (trueColor st) && negb (xTerm st)); reflexivity.
Qed.

(** C8.  When [FormatText] succeeds, its result is the codes written
    before the text, then the text, then the reset code [ESC[0m] exactly
    when at least one style or colour code was written.  No code is
    written exactly when every requested style is unknown and no colour
    is requested: the result is then the text itself, with no reset and
    no error.  [StyleText] with the one style ["invalid-style"] returns
    the text unchanged, whatever the capability flags, and has no error
    to report. *)
Theorem C8_reset_iff_prefixed :
  (forall (text : string) (o : Options) (out : string) (st' : globals),
      run (FormatText text (Some o)) st = (Next (out, None), st') ->
      exists pre,
        pre = Spec.prefix (trueColor st) o
        /\ (pre = "" <->
            Forall (fun s => styles !! s = None) (Styles o)
            /\ BgColor o = "" /\ FgColor o = "")
        /\ (pre = "" -> out = text)
        /\ (pre <> "" -> out = pre ++ text ++ reset))
  /\ (forall (text : string) (names : list string),
        names <> [] ->
        Forall (fun s => styles !! s = None) names ->
        negb (trueColor st) && negb (xTerm st) = false ->
        exists st', run (FormatText text (Some (mkOptions "" "" names))) st
                    = (Next (text, None), st'))
  /\ (forall text : string,
        fst (run (StyleText text ["invalid-style"]) st) = Next text).
Proof.
  split; [exact reset_iff_prefixed|].
  split; [exact unknown_styles_only | exact StyleText_invalid_style].
Qed.

(** C10, amended.  [GetColor] validates the hex string before it looks
    at the capability flags, [FormatText] looks at the flags first: when
    neither flag is set and the hex string is invalid and not empty,
    [GetColor] returns the invalid-hex error while [FormatText],
    [ForegroundText] and [BackgroundText] return the unsupported-terminal
    error.  For the empty string, invalid as well, [ForegroundText] and
    [BackgroundText] return the no-options error. *)
Theorem C10_validation_order (text hex : string) (ctx : ColorContext) :
  trueColor st = false -> xTerm st = false ->
  Spec.hex_pattern hex = false ->
  run (GetColor hex ctx) st = (Next ("", Some (HEXERR hex)), st)
  /\ (hex <> "" ->
      run (ForegroundText text hex) st = (Next (text, Some SYSNOCOLOR), st)
      /\ run (BackgroundText text hex) st = (Next (text, Some SYSNOCOLOR), st)
      /\ forall o, BgColor o = hex \/ FgColor o = hex ->
                   run (FormatText text (Some o)) st
                   = (Next (text, Some SYSNOCOLOR), st))
  /\ (hex = "" ->
      run (ForegroundText text hex) st = (Next (text, Some NoOptions), st)
      /\ run (BackgroundText text hex) st = (Next (text, Some NoOptions), st)).
Proof.
  intros Htc Hxt Hp. split; [apply run_GetColor_bad, Hp|]. split.
  - intros Hne. apply String.eqb_neq in Hne.
    assert (Ho : forall o, BgColor o = hex \/ FgColor o = hex ->
              run (FormatText text (Some o)) st = (Next (text, Some SYSNOCOLOR), st)).
    { intros o Hor. apply FormatText_no_support; [|assumption..].
      unfold Spec.no_options.
      destruct Hor as [-> | ->]; rewrite Hne, ?andb_false_r; reflexivity. }
    rewrite run_ForegroundText, run_BackgroundText.
    split; [apply Ho; right; reflexivity|].
    split; [apply Ho; left; reflexivity | exact Ho].
  - intros ->. rewrite run_ForegroundText, run_BackgroundText.
    split; apply FormatText_no_options; reflexivity.
Qed.

End Formatter.

(* ================================================================== *)
(** * The properties at sample inputs *)

Section Samples.

Import Colorize Inv.

Lemma C1_bucket_level_witness :
  Uint.is_uint8 47
  /\ bucket 47 = Some (Spec.level_51 47)
  /\ Spec.clamp 0 5 (Spec.level_51 47) = Spec.level_51 47.
Proof.
  split; [unfold Uint.is_uint8; lia|].
  apply (C1_bucket_level 47). unfold Uint.is_uint8. lia.
Defined.

(** At [c = 5] the code computes level 0, the formula with 42.5 gives 1. *)
Lemma C1_counterexample :
  Uint.is_uint8 5
  /\ bucket 5 = Some 0
  /\ Spec.level_42_5 5 = 1
  /\ bucket 5 <> Some (Spec.level_42_5 5).
Proof.
  split; [unfold Uint.is_uint8; lia|].
  split; [vm_compute; reflexivity|].
  split; [vm_compute; reflexivity|].
  vm_compute. discriminate.
Qed.

Lemma valid_gray128 : valid_color (mkColor 128 128 128).
Proof. unfold valid_color, Uint.is_uint8. simpl. lia. Defined.

Lemma valid_red : valid_color (mkColor 255 0 0).
Proof. unfold valid_color, Uint.is_uint8. simpl. lia. Defined.

Lemma C2_grayscale_branch_witness :
  valid_color (mkColor 128 128 128)
  /\ bucket 128 = Some 3
  /\ run (rgbToXterm (Some (mkColor 128 128 128))) xterm_term = (Next 242, xterm_term).
Proof.
  split; [exact valid_gray128|].
  split; [vm_compute; reflexivity|].
  exact (proj1 (C2_grayscale_branch xterm_term (mkColor 128 128 128) 3 valid_gray128
                  eq_refl eq_refl eq_refl)).
Defined.

(** The gray (1,1,1) lies strictly between black and white and is
    reduced to index 0. *)
Lemma C2_counterexample :
  0 < 1 < 255
  /\ run (rgbToXterm (Some (mkColor 1 1 1))) xterm_term = (Next 0, xterm_term)
  /\ ~ In 0 [232; 237; 242; 247; 252].
Proof.
  split; [lia|]. split; [vm_compute; reflexivity|].
  simpl. intros H. repeat (destruct H as [H | H]; [discriminate|]). exact H.
Qed.

Lemma C3_color_cube_branch_witness :
  valid_color (mkColor 255 0 0)
  /\ bucket 255 = Some 5 /\ bucket 0 = Some 0
  /\ ~ (5 = 0 /\ 0 = 0)
  /\ run (rgbToXterm (Some (mkColor 255 0 0))) xterm_term = (Next 196, xterm_term).
Proof.
  assert (Hne : ~ (5 = 0 /\ 0 = 0)) by (intros [H _]; discriminate H).
  split; [exact valid_red|].
  split; [vm_compute; reflexivity|]. split; [vm_compute; reflexivity|].
  split; [exact Hne|].
  exact (C3_color_cube_branch xterm_term (mkColor 255 0 0) 5 0 0 valid_red
           eq_refl eq_refl eq_refl Hne).
Defined.

Lemma C9_rgbToXterm_total_witness :
  valid_color (mkColor 255 0 0)
  /\ exists idx, run (rgbToXterm (Some (mkColor 255 0 0))) xterm_term
                 = (Next idx, xterm_term).
Proof.
  split; [exact valid_red|].
  destruct (C9_rgbToXterm_total xterm_term (mkColor 255 0 0) valid_red)
    as (lr & lg & lb & idx & _ & _ & _ & _ & _ & _ & _ & _ & _ & H & _).
  exists idx. exact H.
Defined.

Lemma C4_color_codes_witness :
  fst (run (getColor "#FF0000") both_term) = Next (Some (mkColor 255 0 0), None)
  /\ fst (run (FormatText "hi" (Some (mkOptions "" "#FF0000" []))) both_term)
     = Next (String "027" "[38;2;255;0;0mhi" ++ String "027" "[0m", None)
  /\ fst (run (getColor "#FF0000") xterm_term) = Next (Some (mkColor 255 0 0), None)
  /\ run (rgbToXterm (Some (mkColor 255 0 0))) xterm_term = (Next 196, xterm_term)
  /\ fst (run (FormatText "hi" (Some (mkOptions "" "#FF0000" []))) xterm_term)
     = Next (String "027" "[38;5;196mhi" ++ String "027" "[0m", None)
  /\ fst (run (FormatText "hi" (Some (mkOptions "#FF0000" "" []))) xterm_term)
     = Next (String "027" "[48;5;196mhi" ++ String "027" "[0m", None).
Proof.
  assert (H : fst (run (getColor "#FF0000") both_term)
              = Next (Some (mkColor 255 0 0), None)) by (vm_compute; reflexivity).
  assert (H' : fst (run (getColor "#FF0000") xterm_term)
               = Next (Some (mkColor 255 0 0), None)) by (vm_compute; reflexivity).
  split; [exact H|].
  split; [exact (proj1 (C4_color_codes both_term "hi" "#FF0000" (mkColor 255 0 0) H)
                   eq_refl)|].
  split; [exact H'|].
  destruct (proj1 (proj2 (proj2 (C4_color_codes xterm_term "hi" "#FF0000"
                                   (mkColor 255 0 0) H'))) eq_refl eq_refl)
    as (n & Hn & Hrun & Hfg & Hbg & _).
  rewrite Hn in Hrun, Hfg, Hbg.
  split; [exact Hrun|]. split; [exact Hfg | exact Hbg].
Defined.

Lemma C6_error_conditions_witness :
  Spec.no_options (Some (mkOptions "" "#FF0000" [])) = false
  /\ run (FormatText "hi" (Some (mkOptions "" "#FF0000" []))) dumb_term
     = (Next ("hi", Some SYSNOCOLOR), dumb_term).
Proof.
  split; [reflexivity|].
  destruct (C6_error_conditions dumb_term "hi" (Some (mkOptions "" "#FF0000" [])))
    as (_ & _ & _ & H & _).
  exact (H eq_refl eq_refl eq_refl).
Defined.

Lemma C7_error_returns_text_witness :
  run (FormatText "hi" (Some (mkOptions "" "#FF000H" ["bold"]))) xterm_term
  = (Next ("hi", Some (HEXERR "#FF000H")), xterm_term)
  /\ "hi" = "hi".
Proof.
  assert (H : run (FormatText "hi" (Some (mkOptions "" "#FF000H" ["bold"]))) xterm_term
              = (Next ("hi", Some (HEXERR "#FF000H")), xterm_term))
    by (vm_compute; reflexivity).
  split; [exact H|].
  exact (C7_error_returns_text xterm_term "hi" (Some (mkOptions "" "#FF000H" ["bold"]))
           "hi" (HEXERR "#FF000H") xterm_term H).
Defined.

Lemma C8_reset_iff_prefixed_witness :
  run (FormatText "hi" (Some (mkOptions "" "" ["bold"]))) xterm_term
  = (Next (String "027" "[1mhi" ++ String "027" "[0m", None), xterm_term)
  /\ exists pre,
       pre = Spec.prefix false (mkOptions "" "" ["bold"])
       /\ (pre <> "" -> String "027" "[1mhi" ++ String "027" "[0m" = pre ++ "hi" ++ reset).
Proof.
  assert (H : run (FormatText "hi" (Some (mkOptions "" "" ["bold"]))) xterm_term
              = (Next (String "027" "[1mhi" ++ String "027" "[0m", None), xterm_term))
    by (vm_compute; reflexivity).
  split; [exact H|].
  destruct (proj1 (C8_reset_iff_prefixed xterm_term) "hi" (mkOptions "" "" ["bold"])
              _ xterm_term H) as (pre & Hpre & _ & _ & Hout).
  exists pre. split; [exact Hpre | exact Hout].
Defined.

Lemma C10_validation_order_witness :
  trueColor dumb_term = false /\ xTerm dumb_term = false
  /\ Spec.hex_pattern "#FF000H" = false
  /\ "#FF000H" <> ""
  /\ run (GetColor "#FF000H" foreground) dumb_term
     = (Next ("", Some (HEXERR "#FF000H")), dumb_term)
  /\ run (ForegroundText "hi" "#FF000H") dumb_term
     = (Next ("hi", Some SYSNOCOLOR), dumb_term).
Proof.
  assert (Hne : "#FF000H" <> "") by discriminate.
  split; [reflexivity|]. split; [reflexivity|]. split; [reflexivity|].
  split; [exact Hne|].
  destruct (C10_validation_order dumb_term "hi" "#FF000H" foreground
              eq_refl eq_refl eq_refl) as (Hg & Hf & _).
  split; [exact Hg | exact (proj1 (Hf Hne))].
Defined.

(** The empty string is an invalid hex string; with no capability
    [GetColor] rejects it as such, and [ForegroundText] returns the
    no-options error, not the unsupported-terminal error. *)
Lemma C10_counterexample :
  run (validateHex "") dumb_term = (Next (Some (HEXERR "")), dumb_term)
  /\ run (GetColor "" foreground) dumb_term = (Next ("", Some (HEXERR "")), dumb_term)
  /\ run (ForegroundText "hi" "") dumb_term = (Next ("hi", Some NoOptions), dumb_term)
  /\ run (ForegroundText "hi" "") dumb_term <> (Next ("hi", Some SYSNOCOLOR), dumb_term).
Proof.
  split; [vm_compute; reflexivity|].
  split; [vm_compute; reflexivity|].
  split; [vm_compute; reflexivity|].
  vm_compute. discriminate.
Qed.

End Samples.

(* ================================================================== *)
(** * More on the palette reduction *)

Section PaletteMore.

Import Colorize Inv Aux XtermFacts.

Variable st : globals.

(** X1.  On every byte the level is the integer quotient [(c + 45) / 51]:
    0 up to 5, 1 up to 56, 2 up to 107, 3 up to 158, 4 up to 209 and 5
    above; the level never decreases when the channel grows. *)
Theorem X1_bucket_thresholds (c1 c2 : Z) :
  Uint.is_uint8 c1 -> Uint.is_uint8 c2 ->
  bucket c1 = Some ((c1 + 45) / 51)
  /\ (c1 <= c2 -> (c1 + 45) / 51 <= (c2 + 45) / 51)
  /\ (bucket c1 = bucket c2 <-> (c1 + 45) / 51 = (c2 + 45) / 51).
Proof.
  intros H1 H2.
  assert (Hb : forall c, Uint.is_uint8 c -> bucket c = Some ((c + 45) / 51)).
  { intros c Hc.
    pose (ok := fun c : Z =>
      match bucket c with Some l => l =? (c + 45) / 51 | None => false end).
    assert (H : ok c = true).
    { apply (forall_bytes ok); [vm_compute; reflexivity | exact Hc]. }
    unfold ok in H. destruct (bucket c) as [l|]; [|discriminate].
    apply Z.eqb_eq in H. subst l. reflexivity. }
  split; [apply Hb, H1|]. split.
  - intros Hle. apply Z.div_le_mono; lia.
  - rewrite (Hb c1 H1), (Hb c2 H2). split; [intros H; injection H; auto | intros ->; reflexivity].
Qed.

Lemma In_levels (l : Z) : 0 <= l <= 5 -> In l levels.
Proof. intros H. unfold levels. simpl. lia. Qed.

Lemma In_level_triples (lr lg lb : Z) :
  0 <= lr <= 5 -> 0 <= lg <= 5 -> 0 <= lb <= 5 -> In (lr, lg, lb) level_triples.
Proof.
  intros Hr Hg Hb. unfold level_triples.
  apply in_flat_map. exists lr. split; [apply In_levels, Hr|].
  apply in_flat_map. exists lg. split; [apply In_levels, Hg|].
  apply in_map, In_levels, Hb.
Qed.

(** The index is one-to-one on the triples of levels. *)
Lemma xterm_index_inj (lr lg lb lr' lg' lb' : Z) :
  0 <= lr <= 5 -> 0 <= lg <= 5 -> 0 <= lb <= 5 ->
  0 <= lr' <= 5 -> 0 <= lg' <= 5 -> 0 <= lb' <= 5 ->
  Spec.xterm_index lr lg lb = Spec.xterm_index lr' lg' lb' ->
  lr = lr' /\ lg = lg' /\ lb = lb'.
Proof.
  intros Hr Hg Hb Hr' Hg' Hb' E.
  pose (ok := fun t t' : Z * Z * Z =>
    let '(a, b0, c) := t in
    let '(a', b', c') := t' in
    implb (Spec.xterm_index a b0 c =? Spec.xterm_index a' b' c')
          ((a =? a') && (b0 =? b') && (c =? c'))).
  assert (H : forallb (fun t => forallb (ok t) level_triples) level_triples = true)
    by (vm_compute; reflexivity).
  rewrite forallb_forall in H.
  specialize (H _ (In_level_triples lr lg lb Hr Hg Hb)).
  rewrite forallb_forall in H.
  specialize (H _ (In_level_triples lr' lg' lb' Hr' Hg' Hb')).
  unfold ok in H. rewrite E, Z.eqb_refl in H. cbn [implb] in H.
  apply andb_true_iff in H as [H H3]. apply andb_true_iff in H as [H1 H2].
  apply Z.eqb_eq in H1, H2, H3. auto.
Qed.

(** X2.  Two colours are reduced to the same index exactly when their
    three levels agree: the index identifies the triple of levels. *)
Theorem X2_index_identifies_levels (col col' : color) :
  valid_color col -> valid_color col' ->
  (fst (run (rgbToXterm (Some col)) st) = fst (run (rgbToXterm (Some col')) st)
   <-> bucket (r col) = bucket (r col') /\ bucket (g col) = bucket (g col')
       /\ bucket (b col) = bucket (b col')).
Proof.
  intros Hv Hv'. pose proof Hv as (Vr & Vg & Vb). pose proof Hv' as (Vr' & Vg' & Vb').
  destruct (bucket_byte _ Vr) as [Er Br], (bucket_byte _ Vg) as [Eg Bg],
    (bucket_byte _ Vb) as [Eb Bb], (bucket_byte _ Vr') as [Er' Br'],
    (bucket_byte _ Vg') as [Eg' Bg'], (bucket_byte _ Vb') as [Eb' Bb'].
  unfold run. rewrite (call_rgbToXterm_valid col st Hv), (call_rgbToXterm_valid col' st Hv').
  rewrite Er, Eg, Eb, Er', Eg', Eb'. cbn [fst]. split.
  - intros H. injection H as H.
    destruct (xterm_index_inj _ _ _ _ _ _ Br Bg Bb Br' Bg' Bb' H) as (-> & -> & ->).
    auto.
  - intros (H1 & H2 & H3). injection H1 as ->. injection H2 as ->. injection H3 as ->.
    reflexivity.
Qed.

(** X3.  [rgbToXterm] returns 0, 15, one of 232, 237, 242, 247, or an
    entry of the colour cube off its gray diagonal: never one of the
    system colours 1 to 14, never 16, 59, 102, 145, 188 or 231, and never
    an entry above 247. *)
Theorem X3_reachable_indexes (col : color) (idx : Z) :
  valid_color col ->
  fst (run (rgbToXterm (Some col)) st) = Next idx ->
  In idx [0; 15; 232; 237; 242; 247]
  \/ (17 <= idx <= 230 /\ (idx - 16) mod 43 <> 0).
Proof.
  intros Hv. pose proof Hv as (Vr & Vg & Vb).
  destruct (bucket_byte _ Vr) as [_ Br], (bucket_byte _ Vg) as [_ Bg],
    (bucket_byte _ Vb) as [_ Bb].
  unfold run. rewrite (call_rgbToXterm_valid col st Hv). cbn [fst].
  intros H. injection H as <-.
  pose (ok := fun t : Z * Z * Z =>
    let '(a, b0, c) := t in
    let i := Spec.xterm_index a b0 c in
    (i =? 0) || (i =? 15) || (i =? 232) || (i =? 237) || (i =? 242) || (i =? 247)
    || ((17 <=? i) && (i <=? 230) && negb ((i - 16) mod 43 =? 0))).
  assert (H : forallb ok level_triples = true) by (vm_compute; reflexivity).
  rewrite forallb_forall in H.
  specialize (H _ (In_level_triples _ _ _ Br Bg Bb)). unfold ok in H.
  set (i := Spec.xterm_index _ _ _) in *. clearbody i.
  repeat (apply orb_true_iff in H as [H | H]);
    try (apply Z.eqb_eq in H; subst i; left; simpl; tauto).
  right. apply andb_true_iff in H as [H H3]. apply andb_true_iff in H as [H1 H2].
  apply negb_true_iff, Z.eqb_neq in H3. lia.
Qed.

End PaletteMore.

(* ================================================================== *)
(** * More on hex validation *)

Section HexMore.

Import Colorize Inv Case Enum GetColorFacts HexFacts.

Variable st : globals.



Lemma upper_hex_digit (c : ascii) :
  Spec.is_hex_digit (upper c) = Spec.is_hex_digit c
  /\ Ascii.eqb (upper c) "#" = Ascii.eqb c "#"
  /\ (Spec.is_hex_digit c = true -> Spec.hex_value (upper c) = Spec.hex_value c).
Proof.
  pose (ok := fun c : ascii =>
    Bool.eqb (Spec.is_hex_digit (upper c)) (Spec.is_hex_digit c)
    && Bool.eqb (Ascii.eqb (upper c) "#") (Ascii.eqb c "#")
    && implb (Spec.is_hex_digit c) (Spec.hex_value (upper c) =? Spec.hex_value c)).
  assert (H : ok c = true).
  { apply (forall_ascii ok). vm_compute. reflexivity. }
  unfold ok in H. apply andb_true_iff in H as [H H3]. apply andb_true_iff in H as [H1 H2].
  apply Bool.eqb_prop in H1, H2. repeat split; [exact H1 | exact H2|].
  intros Hd. rewrite Hd in H3. apply Z.eqb_eq in H3. exact H3.
Qed.

Lemma upper_hex_digits (n : nat) :
  forall s, Spec.hex_digits n (upper_string s) = Spec.hex_digits n s.
Proof.
  induction n as [|n IH]; intros [|c s]; simpl; try reflexivity.
  rewrite IH. destruct (upper_hex_digit c) as (-> & _). reflexivity.
Qed.

Lemma upper_strip_hash (s : string) :
  Spec.strip_hash (upper_string s) = upper_string (Spec.strip_hash s).
Proof.
  destruct s as [|c s]; [reflexivity|]. simpl.
  destruct (upper_hex_digit c) as (_ & -> & _).
  destruct (Ascii.eqb c "#"); reflexivity.
Qed.

(** X5.  Validation and conversion ignore the case of the letters: the
    string with [a]..[f] in upper case is valid exactly when the string
    is, and [getColor] returns the same colour for both. *)
Theorem X5_case_insensitive (s : string) :
  Regexp.MatchString regex (upper_string s) = Regexp.MatchString regex s
  /\ (Regexp.MatchString regex s = true ->
      run (getColor (upper_string s)) st = run (getColor s) st).
Proof.
  rewrite !MatchString_regex.
  assert (E : Spec.hex_pattern (upper_string s) = Spec.hex_pattern s).
  { unfold Spec.hex_pattern. rewrite upper_strip_hash. apply upper_hex_digits. }
  split; [exact E|].
  intros Hp. unfold run. rewrite !call_getColor, E, Hp.
  assert (Ht : Spec.triple (upper_string s) = Spec.triple s).
  { unfold Spec.triple. rewrite upper_strip_hash.
    unfold Spec.hex_pattern in Hp.
    destruct (hex_digits_6_inv _ Hp)
      as (a & b0 & c & d & e & f & -> & Ha & Hb & Hc & Hd & He & Hf).
    cbn [upper_string]. unfold Spec.hex_byte.
    rewrite (proj2 (proj2 (upper_hex_digit a)) Ha), (proj2 (proj2 (upper_hex_digit b0)) Hb),
      (proj2 (proj2 (upper_hex_digit c)) Hc), (proj2 (proj2 (upper_hex_digit d)) Hd),
      (proj2 (proj2 (upper_hex_digit e)) He), (proj2 (proj2 (upper_hex_digit f)) Hf).
    reflexivity. }
  rewrite Ht. reflexivity.
Qed.



End HexMore.

(* ================================================================== *)
(** * The formatter with its effect on the package variables *)

Module StateFacts.
Import Colorize Inv Aux Steps GetColorFacts XtermFacts FormatFacts WrapperFacts.

Lemma color_state_flags (hex : string) (st : globals) :
  same_flags st (color_state hex st).
Proof.
  unfold color_state, same_flags.
  destruct (String.eqb hex ""); [auto|].
  destruct (Spec.hex_pattern hex); [|auto].
  destruct (Spec.triple hex) as [[[rr gg] bb]|]; auto.
Qed.

Lemma color_state_bad (hex : string) (st : globals) :
  Spec.bad_color hex = true -> color_state hex st = st.
Proof.
  unfold Spec.bad_color, color_state. intros H.
  destruct (String.eqb hex ""); [reflexivity|].
  destruct (Spec.hex_pattern hex); [discriminate | reflexivity].
Qed.

Lemma color_step_full (tc bg : bool) (text hex : string) (builder : string)
      (st : globals) :
  color_step tc bg text hex builder st
  = (if Spec.bad_color hex then Return (text, Some (HEXERR hex))
     else Next (builder ++ Spec.color_code tc bg hex), color_state hex st).
Proof.
  unfold color_step, Spec.bad_color, Spec.color_code, color_state.
  destruct (String.eqb hex "") eqn:He; cbn [negb andb].
  { rewrite append_nil_r. reflexivity. }
  unfold bind. destruct (Spec.hex_pattern hex) eqn:Hp; cbn [negb].
  - destruct (call_getColor_good (R' := string * option error) hex st Hp)
      as (rr & gg & bb & Ht & Hr & Hg & Hb & Hc).
    rewrite Hc, Ht.
    destruct tc;
      [ rewrite (call_getTCCode (mkColor rr gg bb) bg)
      | rewrite (call_getXTCode (mkColor rr gg bb) bg) by (split; [|split]; assumption) ];
      reflexivity.
  - rewrite (call_getColor_bad hex st Hp). reflexivity.
Qed.

(** What [FormatText] returns and what it leaves in the package
    variables. *)
Lemma call_FormatText_full {R' : Type} (text : string) (options : option Options)
      (st : globals) :
  @call globals _ R' (FormatText text options) st =
    (Next (match Spec.format_error (trueColor st) (xTerm st) options with
           | Some e => (text, Some e)
           | None =>
               match options with
               | Some o => (Spec.format_output (trueColor st) text o, None)
               | None => (text, None)
               end
           end), format_state options st).
Proof.
  destruct options as [o|]; [|reflexivity].
  unfold FormatText, Spec.format_error, format_state. rewrite no_options_code.
  destruct (Spec.no_options (Some o)); [reflexivity|].
  cbn [deref]. unfold call at 1.
  change (bind (next o) ?k st) with (k o st). cbv beta.
  change (bind (load trueColor) ?k st) with (k (trueColor st) st). cbv beta.
  change (bind (load xTerm) ?k st) with (k (xTerm st) st). cbv beta.
  destruct (negb (trueColor st) && negb (xTerm st)) eqn:Hcap; [reflexivity|].
  cbv zeta. rewrite styles_builder.
  match goal with
  | |- context [match ?body st with _ => _ end] =>
      change (match body st with
              | (Next res, st') | (Return res, st') => (Next res, st')
              | (Panic, st') => (Panic, st')
              | (Unspecified, st') => (Unspecified, st')
              end) with (@call globals _ R' body st)
  end.
  assert (Hsteps : forall tc,
      @call globals _ R'
        (let* builder :=
           (let* builder := color_step tc true text (BgColor o)
                              (Spec.style_codes (Styles o)) in
            color_step tc false text (FgColor o) builder) in
         let builder := Builder.WriteString builder text in
         if (String.length (Builder.String builder) =? String.length text)%nat
         then ret (Builder.String builder, None)
         else
           let builder := Builder.WriteString builder reset in
           ret (Builder.String builder, None)) st
      = (Next (if Spec.bad_color (BgColor o) then (text, Some (HEXERR (BgColor o)))
               else if Spec.bad_color (FgColor o) then (text, Some (HEXERR (FgColor o)))
               else (Spec.format_output tc text o, None)),
         if Spec.bad_color (BgColor o) then st
         else color_state (FgColor o) (color_state (BgColor o) st))).
  { intros tc. rewrite call_bind_assoc.
    pose proof (color_step_full tc true text (BgColor o) (Spec.style_codes (Styles o)) st)
      as E1.
    destruct (Spec.bad_color (BgColor o)) eqn:Bb.
    { rewrite (call_bind_return _ _ _ _ _ E1), (color_state_bad _ _ Bb). reflexivity. }
    rewrite (call_bind_next _ _ _ _ _ E1).
    match goal with
    | |- context [color_step tc false text (FgColor o) ?bld] =>
        pose proof (color_step_full tc false text (FgColor o) bld
                      (color_state (BgColor o) st)) as E2
    end.
    destruct (Spec.bad_color (FgColor o)).
    { rewrite (call_bind_return _ _ _ _ _ E2). reflexivity. }
    rewrite (call_bind_next _ _ _ _ _ E2).
    rewrite finish_run. unfold Spec.format_output, Spec.prefix.
    rewrite !append_assoc. reflexivity. }
  destruct (trueColor st) eqn:Htc.
  - etransitivity; [exact (Hsteps true)|].
    destruct (Spec.bad_color (BgColor o)), (Spec.bad_color (FgColor o)); reflexivity.
  - etransitivity; [exact (Hsteps false)|].
    destruct (Spec.bad_color (BgColor o)), (Spec.bad_color (FgColor o)); reflexivity.
Qed.

Lemma format_state_flags (options : option Options) (st : globals) :
  same_flags st (format_state options st).
Proof.
  unfold format_state. destruct options as [o|]; [|split; reflexivity].
  destruct (Spec.no_options (Some o)); [split; reflexivity|].
  destruct (negb (trueColor st) && negb (xTerm st)); [split; reflexivity|].
  destruct (Spec.bad_color (BgColor o)); [split; reflexivity|].
  destruct (color_state_flags (BgColor o) st) as [H1 H2].
  destruct (color_state_flags (FgColor o) (color_state (BgColor o) st)) as [H3 H4].
  split; congruence.
Qed.

End StateFacts.

(* ================================================================== *)
(** * More on the colour codes and on the formatter *)

Section FormatterMore.

Import Colorize Inv Aux GetColorFacts HexFacts XtermFacts FormatFacts WrapperFacts
       StateFacts.

Variable st : globals.

(** A context that is not ["background"] selects the foreground code. *)
Lemma GetColor_context (hex : string) (ctx : ColorContext) (s : globals) :
  run (GetColor hex ctx) s
  = run (GetColor hex (if String.eqb ctx background then background else foreground)) s.
Proof.
  destruct (String.eqb ctx background) eqn:E.
  - apply String.eqb_eq in E. subst ctx. reflexivity.
  - unfold GetColor, getTCCode, getXTCode. rewrite E. reflexivity.
Qed.

Lemma GetColor_flags (hex : string) (ctx : ColorContext) (s : globals) :
  same_flags s (snd (run (GetColor hex ctx) s)).
Proof.
  rewrite GetColor_context, run_GetColor.
  destruct (Spec.hex_pattern hex); [|split; reflexivity].
  destruct (Spec.triple hex) as [[[rr gg] bb]|]; split; reflexivity.
Qed.

(** X7.  [GetColor] always returns, and never changes the capability
    flags.  It returns no error exactly when the hex string is valid and a
    capability flag is set; the code is empty exactly when there is an
    error.  An invalid hex string gives the invalid-hex error and leaves
    the package variables as they were; a valid one without capability
    gives the unsupported-terminal error. *)
Theorem X7_GetColor_result (hex : string) (ctx : ColorContext) :
  exists code err st',
    run (GetColor hex ctx) st = (Next (code, err), st')
    /\ (err = None <->
        Regexp.MatchString regex hex = true /\ (trueColor st = true \/ xTerm st = true))
    /\ (code = "" <-> err <> None)
    /\ (Regexp.MatchString regex hex = false -> err = Some (HEXERR hex) /\ st' = st)
    /\ (Regexp.MatchString regex hex = true -> trueColor st = false -> xTerm st = false ->
        err = Some SYSNOCOLOR)
    /\ same_flags st st'.
Proof.
  rewrite GetColor_context, run_GetColor, MatchString_regex.
  destruct (Spec.hex_pattern hex) eqn:Hp.
  - destruct (triple_of_pattern _ Hp) as (rr & gg & bb & Ht & _). rewrite Ht.
    set (bg := String.eqb ctx background).
    destruct (trueColor st) eqn:Htc; [|destruct (xTerm st) eqn:Hxt].
    + eexists _, _, _. split; [reflexivity|].
      split; [split; auto|].
      split; [split; [intros H; exfalso; exact (emit_nonempty _ _ _ H) | congruence]|].
      split; [discriminate|]. split; [discriminate|]. split; reflexivity.
    + eexists _, _, _. split; [reflexivity|].
      split; [split; auto|].
      split; [split; [intros H; exfalso; exact (emit_nonempty _ _ _ H) | congruence]|].
      split; [discriminate|]. split; [discriminate|]. split; reflexivity.
    + eexists _, _, _. split; [reflexivity|].
      split; [split; [discriminate | intros [_ [H | H]]; discriminate]|].
      split; [split; [discriminate | reflexivity]|].
      split; [discriminate|]. split; [reflexivity|]. split; reflexivity.
  - eexists _, _, _. split; [reflexivity|].
    split; [split; [discriminate | intros [H _]; discriminate]|].
    split; [split; [discriminate | reflexivity]|].
    split; [auto|]. split; [discriminate|]. split; reflexivity.
Qed.

(** X8.  The context is compared with ["background"] only: with any other
    context, also a misspelt one, [GetColor] returns what it returns for
    the foreground. *)
Theorem X8_context_default (hex : string) (ctx : ColorContext) :
  ctx <> background ->
  run (GetColor hex ctx) st = run (GetColor hex foreground) st.
Proof.
  intros H. apply String.eqb_neq in H. rewrite GetColor_context, H. reflexivity.
Qed.

Lemma GetColor_ok_inv (hex : string) (bg : bool) (code : string) :
  fst (run (GetColor hex (if bg then background else foreground)) st) = Next (code, None) ->
  Spec.hex_pattern hex = true
  /\ negb (trueColor st) && negb (xTerm st) = false
  /\ code = Spec.color_code (trueColor st) bg hex.
Proof.
  rewrite run_GetColor. unfold Spec.color_code.
  destruct (Spec.hex_pattern hex) eqn:Hp; [|discriminate].
  rewrite (pattern_not_empty _ Hp).
  destruct (triple_of_pattern _ Hp) as (rr & gg & bb & Ht & _). rewrite Ht. cbn [fst].
  destruct (trueColor st); [|destruct (xTerm st)]; intros H; try discriminate;
    injection H as <-; auto.
Qed.

Lemma ok_not_bad (hex : string) : Spec.hex_pattern hex = true -> Spec.bad_color hex = false.
Proof. unfold Spec.bad_color. intros ->. apply andb_false_r. Qed.

Lemma color_code_nonempty (tc bg : bool) (hex : string) :
  Spec.hex_pattern hex = true -> String.eqb (Spec.color_code tc bg hex) "" = false.
Proof.
  intros Hp. apply String.eqb_neq. intros H.
  apply (color_code_empty tc bg hex (ok_not_bad _ Hp)) in H. subst hex. discriminate.
Qed.

(** X9.  When [GetColor] returns a code for a colour, [ForegroundText]
    (for the foreground code) and [BackgroundText] (for the background
    code) return that code, the text and [Reset]. *)
Theorem X9_wrappers_from_GetColor (text hex : string) (bg : bool) (code : string) :
  fst (run (GetColor hex (if bg then background else foreground)) st) = Next (code, None) ->
  fst (run ((if bg then BackgroundText else ForegroundText) text hex) st)
  = Next (code ++ text ++ Reset, None).
Proof.
  intros H. destruct (GetColor_ok_inv _ _ _ H) as (Hp & Hcap & ->).
  pose proof (pattern_not_empty _ Hp) as Hne.
  pose proof (ok_not_bad _ Hp) as Hnb.
  pose proof (color_code_nonempty (trueColor st) bg hex Hp) as Hcc.
  destruct bg; [rewrite run_BackgroundText | rewrite run_ForegroundText];
    unfold run; rewrite call_FormatText_full; cbn [fst];
    unfold Spec.format_error, Spec.no_options, Spec.format_output, Spec.prefix;
    cbn [BgColor FgColor Styles Spec.style_codes];
    cbn [Spec.bad_color String.eqb negb andb] in *;
    rewrite ?Hne, ?Hcap, ?Hnb; cbn [andb];
    change (Spec.color_code (trueColor st) false "") with "";
    change (Spec.color_code (trueColor st) true "") with "";
    rewrite ?append_nil_r; cbn [String.append]; rewrite Hcc; reflexivity.
Qed.

(** X10.  The codes come in a fixed order: when [GetColor] returns a code
    for the background and one for the foreground, [FormatText] returns
    the style codes in the order requested, the background code, the
    foreground code, the text and [Reset]. *)
Theorem X10_FormatText_order (text : string) (o : Options) (cb cf : string) :
  fst (run (GetColor (BgColor o) background) st) = Next (cb, None) ->
  fst (run (GetColor (FgColor o) foreground) st) = Next (cf, None) ->
  fst (run (FormatText text (Some o)) st)
  = Next (fold_left (fun bld s => Builder.WriteString bld (styles_at s)) (Styles o)
            Builder.new ++ cb ++ cf ++ text ++ Reset, None).
Proof.
  intros Hb Hf.
  destruct (GetColor_ok_inv _ true _ Hb) as (Hpb & Hcap & ->).
  destruct (GetColor_ok_inv _ false _ Hf) as (Hpf & _ & ->).
  unfold run. rewrite call_FormatText_full. cbn [fst].
  unfold Spec.format_error, Spec.no_options.
  rewrite (pattern_not_empty _ Hpb), Hcap, (ok_not_bad _ Hpb), (ok_not_bad _ Hpf).
  cbn [andb]. unfold Spec.format_output, Spec.prefix.
  rewrite write_styles. cbn [Builder.new String.append].
  assert (Hne : String.eqb (Spec.style_codes (Styles o)
                            ++ Spec.color_code (trueColor st) true (BgColor o)
                            ++ Spec.color_code (trueColor st) false (FgColor o)) "" = false).
  { apply String.eqb_neq. intros H. apply append_empty in H as [_ H].
    apply append_empty in H as [H _].
    pose proof (color_code_nonempty (trueColor st) true _ Hpb) as Hc.
    rewrite H in Hc. discriminate. }
  rewrite Hne, !append_assoc. reflexivity.
Qed.

Lemma wrapper_ok_inv (text hex : string) (bg : bool) (out : string) :
  fst (run ((if bg then BackgroundText else ForegroundText) text hex) st) = Next (out, None) ->
  Spec.hex_pattern hex = true
  /\ negb (trueColor st) && negb (xTerm st) = false
  /\ out = Spec.color_code (trueColor st) bg hex ++ text ++ Reset.
Proof.
  assert (H0 : fst (run ((if bg then BackgroundText else ForegroundText) text hex) st)
               = fst (run (FormatText text (Some (if bg then mkOptions hex "" []
                                                  else mkOptions "" hex []))) st)).
  { destruct bg; [rewrite run_BackgroundText | rewrite run_ForegroundText]; reflexivity. }
  rewrite H0. unfold run. rewrite call_FormatText_full. cbn [fst].
  unfold Spec.format_error, Spec.no_options, Spec.format_output, Spec.prefix.
  assert (Hbad : Spec.bad_color "" = false) by reflexivity.
  assert (Hcc : forall tc b', Spec.color_code tc b' "" = "") by reflexivity.
  destruct (String.eqb hex "") eqn:He.
  { destruct bg; cbn [BgColor FgColor Styles String.eqb andb]; rewrite He;
      cbn [andb]; discriminate. }
  destruct (negb (trueColor st) && negb (xTerm st)) eqn:Hcap.
  { destruct bg; cbn [BgColor FgColor Styles String.eqb andb]; rewrite He;
      cbn [andb]; discriminate. }
  destruct (Spec.hex_pattern hex) eqn:Hp.
  - pose proof (ok_not_bad _ Hp) as Hnb.
    pose proof (color_code_nonempty (trueColor st) bg hex Hp) as Hne.
    destruct bg; cbn [BgColor FgColor Styles String.eqb andb Spec.style_codes];
      rewrite He, ?Hbad, Hnb, ?Hcc, ?append_nil_r; cbn [andb String.append];
      rewrite Hne; intros H; injection H as <-; auto.
  - assert (Hb : Spec.bad_color hex = true).
    { unfold Spec.bad_color. rewrite He, Hp. reflexivity. }
    destruct bg; cbn [BgColor FgColor Styles String.eqb andb];
      rewrite He, ?Hbad, Hb; cbn [andb]; discriminate.
Qed.

(** X11.  Nesting the wrappers is not the combined call: colouring the
    foreground and then the background of the result gives what
    [FormatText] gives for both colours at once, followed by one more
    [Reset]. *)
Theorem X11_nested_wrappers (text fg bg t1 t2 : string) (st2 : globals) :
  same_flags st st2 ->
  fst (run (ForegroundText text fg) st) = Next (t1, None) ->
  fst (run (BackgroundText t1 bg) st2) = Next (t2, None) ->
  exists t3,
    fst (run (FormatText text (Some (mkOptions bg fg []))) st) = Next (t3, None)
    /\ t2 = t3 ++ Reset.
Proof.
  intros [Ht Hx] H1 H2.
  destruct (wrapper_ok_inv text fg false t1 H1) as (Hpf & Hcap & ->).
  assert (Hbad : Spec.bad_color "" = false) by reflexivity.
  assert (Hcc : forall tc b', Spec.color_code tc b' "" = "") by reflexivity.
  rewrite run_BackgroundText in H2. unfold run in H2 |- *.
  rewrite call_FormatText_full in H2 |- *. cbn [fst] in H2 |- *.
  unfold Spec.format_error, Spec.no_options, Spec.format_output, Spec.prefix in H2 |- *.
  cbn [BgColor FgColor Styles Spec.style_codes String.eqb andb] in H2 |- *.
  rewrite Ht, Hx, Hcap, Hbad, Hcc, append_nil_r in H2. rewrite Hcap, (ok_not_bad _ Hpf).
  cbn [String.append] in H2 |- *.
  destruct (String.eqb bg "") eqn:He; cbn [andb] in H2 |- *; [discriminate|].
  destruct (Spec.bad_color bg) eqn:Hb; [discriminate|].
  assert (Hpb : Spec.hex_pattern bg = true).
  { unfold Spec.bad_color in Hb. rewrite He in Hb. cbn [negb andb] in Hb.
    apply negb_false_iff in Hb. exact Hb. }
  rewrite (color_code_nonempty (trueColor st) true bg Hpb) in H2.
  assert (Hne : String.eqb (Spec.color_code (trueColor st) true bg
                            ++ Spec.color_code (trueColor st) false fg) "" = false).
  { apply String.eqb_neq. intros H. apply append_empty in H as [H _].
    pose proof (color_code_nonempty (trueColor st) true _ Hpb) as Hc.
    rewrite H in Hc. discriminate. }
  rewrite Hne. injection H2 as <-.
  eexists. split; [reflexivity|]. rewrite !append_assoc. reflexivity.
Qed.


(** X13.  No function of the package writes the capability flags:
    [FormatText], its three wrappers and [GetColor] leave [trueColor] and
    [xTerm] as they found them. *)
Theorem X13_flags_preserved (text hex : string) (options : option Options)
        (names : list string) (ctx : ColorContext) :
  same_flags st (snd (run (FormatText text options) st))
  /\ same_flags st (snd (run (ForegroundText text hex) st))
  /\ same_flags st (snd (run (BackgroundText text hex) st))
  /\ same_flags st (snd (run (StyleText text names) st))
  /\ same_flags st (snd (run (GetColor hex ctx) st)).
Proof.
  assert (HF : forall o, same_flags st (snd (run (FormatText text o) st))).
  { intros o. unfold run. rewrite call_FormatText_full. apply format_state_flags. }
  split; [apply HF|].
  split; [rewrite run_ForegroundText; apply HF|].
  split; [rewrite run_BackgroundText; apply HF|].
  split.
  - unfold run, StyleText. unfold call at 1, bind.
    rewrite (call_FormatText_full (R' := string)).
    destruct (Spec.format_error _ _ _); apply format_state_flags.
  - apply GetColor_flags.
Qed.

(** X14.  A call that fails can still overwrite [colorPtr].  For a valid
    hex string, [GetColor] without capability returns the
    unsupported-terminal error after it has stored the colour; and
    [FormatText] with that string as background and an invalid, non-empty
    foreground returns the invalid-hex error and the text, with the
    background colour left in [colorPtr]. *)
Theorem X14_colorPtr_after_failure (text hex bad : string) (names : list string)
        (ctx : ColorContext) (col : color) :
  fst (run (getColor hex) st) = Next (Some col, None) ->
  (trueColor st = false -> xTerm st = false ->
   run (GetColor hex ctx) st
   = (Next ("", Some SYSNOCOLOR), set_colorPtr (Some col) st))
  /\ (negb (trueColor st) && negb (xTerm st) = false ->
      bad <> "" -> Regexp.MatchString regex bad = false ->
      run (FormatText text (Some (mkOptions hex bad names))) st
      = (Next (text, Some (HEXERR bad)), set_colorPtr (Some col) st)).
Proof.
  intros Hok. destruct (getColor_ok_inv st _ _ Hok) as (Hp & Ht & _).
  pose proof (pattern_not_empty _ Hp) as Hne.
  destruct col as [cr cg cb]. cbn [r g b] in Ht. split.
  - intros Htc Hxt. rewrite GetColor_context, run_GetColor, Hp, Ht, Htc, Hxt. reflexivity.
  - intros Hcap Hb Hbad. rewrite MatchString_regex in Hbad.
    apply String.eqb_neq in Hb.
    unfold run. rewrite call_FormatText_full.
    unfold Spec.format_error, Spec.no_options, format_state, Spec.no_options.
    cbn [BgColor FgColor Styles]. rewrite Hne, Hcap, (ok_not_bad _ Hp).
    cbn [andb]. unfold Spec.bad_color. rewrite Hb, Hbad. cbn [negb andb].
    unfold color_state. rewrite Hb, Hbad, Hne, Hp, Ht. reflexivity.
Qed.

(** X15.  [StyleText] always returns a string.  It is the text itself
    when no capability flag is set or when the requested styles write no
    code (an empty list, unknown names only); otherwise it is the codes of
    the known styles, in the order requested and as often as requested,
    the text and [Reset].  The codes of two lists joined are the codes of
    the first followed by the codes of the second. *)
Theorem X15_StyleText_result (text : string) (names more : list string) :
  let codes := fun l : list string =>
    fold_left (fun bld s => Builder.WriteString bld (styles_at s)) l Builder.new in
  fst (run (StyleText text names) st)
  = Next (if (negb (trueColor st) && negb (xTerm st)) || String.eqb (codes names) ""
          then text
          else codes names ++ text ++ Reset)
  /\ codes (names ++ more)%list = codes names ++ codes more.
Proof.
  intros codes.
  assert (Hc : forall l, codes l = Spec.style_codes l).
  { intros l. unfold codes. rewrite write_styles. reflexivity. }
  split.
  - destruct (run_StyleText text names st) as (st' & E). rewrite E. cbn [fst]. f_equal.
    rewrite Hc.
    unfold Spec.format_error, Spec.no_options, Spec.format_output, Spec.prefix.
    cbn [BgColor FgColor Styles String.eqb andb].
    assert (Hbad : Spec.bad_color "" = false) by reflexivity.
    assert (Hcc : forall tc b', Spec.color_code tc b' "" = "") by reflexivity.
    rewrite Hbad, !Hcc, !append_nil_r.
    destruct names as [|name rest]; [rewrite orb_true_r; reflexivity|].
    destruct (negb (trueColor st) && negb (xTerm st)); [reflexivity|].
    cbn [orb]. reflexivity.
  - rewrite !Hc. induction names as [|name rest IH]; [reflexivity|].
    cbn [app Spec.style_codes]. rewrite IH, append_assoc. reflexivity.
Qed.

(** X16.  The string of a [colorizeErr] is its name, a colon and a space,
    and its message; for a given name, two errors that render alike have
    the same message. *)
Theorem X16_error_rendering (n m m' : string) :
  fst (run (Errors.render n m) st) = fst (run (Errors.render n m') st) ->
  m = m' /\ run (Errors.render n m) st = (Next (n ++ ": " ++ m), st).
Proof.
  intros H. split; [|reflexivity].
  assert (E : forall x, fst (run (Errors.render n x) st) = Next (n ++ ": " ++ x))
    by reflexivity.
  rewrite !E in H. injection H as H.
  apply (inj (String.append n)) in H. injection H as H. exact H.
Qed.

End FormatterMore.

(* ================================================================== *)
(** * These properties at sample inputs *)

Section SamplesMore.

Import Colorize Inv Aux Case.

Lemma byte5 : Uint.is_uint8 5.
Proof. unfold Uint.is_uint8. lia. Defined.

Lemma byte6 : Uint.is_uint8 6.
Proof. unfold Uint.is_uint8. lia. Defined.

Lemma X1_bucket_thresholds_witness :
  Uint.is_uint8 5 /\ Uint.is_uint8 6
  /\ bucket 5 = Some ((5 + 45) / 51)
  /\ (5 <= 6 -> (5 + 45) / 51 <= (6 + 45) / 51).
Proof.
  split; [exact byte5|]. split; [exact byte6|].
  destruct (X1_bucket_thresholds 5 6 byte5 byte6) as (H1 & H2 & _).
  split; [exact H1 | exact H2].
Defined.

Lemma valid_reddish : valid_color (mkColor 250 3 5).
Proof. unfold valid_color, Uint.is_uint8. simpl. lia. Defined.

Lemma X2_index_identifies_levels_witness :
  valid_color (mkColor 255 0 0) /\ valid_color (mkColor 250 3 5)
  /\ fst (run (rgbToXterm (Some (mkColor 255 0 0))) xterm_term)
     = fst (run (rgbToXterm (Some (mkColor 250 3 5))) xterm_term).
Proof.
  split; [exact valid_red|]. split; [exact valid_reddish|].
  apply (proj2 (X2_index_identifies_levels xterm_term _ _ valid_red valid_reddish)).
  split; [|split]; vm_compute; reflexivity.
Defined.

Lemma X3_reachable_indexes_witness :
  valid_color (mkColor 255 0 0)
  /\ fst (run (rgbToXterm (Some (mkColor 255 0 0))) xterm_term) = Next 196
  /\ (In 196 [0; 15; 232; 237; 242; 247]
      \/ (17 <= 196 <= 230 /\ (196 - 16) mod 43 <> 0)).
Proof.
  assert (H : fst (run (rgbToXterm (Some (mkColor 255 0 0))) xterm_term) = Next 196)
    by (vm_compute; reflexivity).
  split; [exact valid_red|]. split; [exact H|].
  exact (X3_reachable_indexes xterm_term (mkColor 255 0 0) 196 valid_red H).
Defined.


Lemma X8_context_default_witness :
  "Background" <> background
  /\ run (GetColor "#FF0000" "Background") truecolor_only
     = run (GetColor "#FF0000" foreground) truecolor_only.
Proof.
  assert (H : "Background" <> background) by discriminate.
  split; [exact H|].
  exact (X8_context_default truecolor_only "#FF0000" "Background" H).
Defined.

Lemma X9_wrappers_from_GetColor_witness :
  fst (run (GetColor "#FF0000" foreground) xterm_term)
  = Next (String "027" "[38;5;196m", None)
  /\ fst (run (ForegroundText "hi" "#FF0000") xterm_term)
     = Next (String "027" "[38;5;196m" ++ "hi" ++ Reset, None).
Proof.
  assert (H : fst (run (GetColor "#FF0000" foreground) xterm_term)
              = Next (String "027" "[38;5;196m", None)) by (vm_compute; reflexivity).
  split; [exact H|].
  exact (X9_wrappers_from_GetColor xterm_term "hi" "#FF0000" false _ H).
Defined.

Lemma X10_FormatText_order_witness :
  fst (run (GetColor "#0000FF" background) both_term)
  = Next (String "027" "[48;2;0;0;255m", None)
  /\ fst (run (GetColor "#FF0000" foreground) both_term)
     = Next (String "027" "[38;2;255;0;0m", None)
  /\ fst (run (FormatText "hi" (Some (mkOptions "#0000FF" "#FF0000" ["bold"; "zz"])))
            both_term)
     = Next (String "027" "[1m" ++ String "027" "[48;2;0;0;255m"
             ++ String "027" "[38;2;255;0;0m" ++ "hi" ++ Reset, None).
Proof.
  assert (Hb : fst (run (GetColor "#0000FF" background) both_term)
               = Next (String "027" "[48;2;0;0;255m", None)) by (vm_compute; reflexivity).
  assert (Hf : fst (run (GetColor "#FF0000" foreground) both_term)
               = Next (String "027" "[38;2;255;0;0m", None)) by (vm_compute; reflexivity).
  split; [exact Hb|]. split; [exact Hf|].
  exact (X10_FormatText_order both_term "hi"
           (mkOptions "#0000FF" "#FF0000" ["bold"; "zz"]) _ _ Hb Hf).
Defined.

Lemma X11_nested_wrappers_witness :
  same_flags xterm_term xterm_term
  /\ fst (run (ForegroundText "hi" "#FF0000") xterm_term)
     = Next (String "027" "[38;5;196mhi" ++ Reset, None)
  /\ fst (run (BackgroundText (String "027" "[38;5;196mhi" ++ Reset) "#0000FF") xterm_term)
     = Next (String "027" "[48;5;21m" ++ String "027" "[38;5;196mhi" ++ Reset ++ Reset, None)
  /\ exists t3,
       fst (run (FormatText "hi" (Some (mkOptions "#0000FF" "#FF0000" []))) xterm_term)
       = Next (t3, None)
       /\ String "027" "[48;5;21m" ++ String "027" "[38;5;196mhi" ++ Reset ++ Reset
          = t3 ++ Reset.
Proof.
  assert (H0 : same_flags xterm_term xterm_term) by (split; reflexivity).
  assert (H1 : fst (run (ForegroundText "hi" "#FF0000") xterm_term)
               = Next (String "027" "[38;5;196mhi" ++ Reset, None))
    by (vm_compute; reflexivity).
  assert (H2 : fst (run (BackgroundText (String "027" "[38;5;196mhi" ++ Reset) "#0000FF")
                      xterm_term)
               = Next (String "027" "[48;5;21m" ++ String "027" "[38;5;196mhi"
                       ++ Reset ++ Reset, None)) by (vm_compute; reflexivity).
  split; [exact H0|]. split; [exact H1|]. split; [exact H2|].
  exact (X11_nested_wrappers xterm_term "hi" "#FF0000" "#0000FF" _ _ xterm_term H0 H1 H2).
Defined.


Lemma X14_colorPtr_after_failure_witness :
  fst (run (getColor "#0000FF") xterm_term) = Next (Some (mkColor 0 0 255), None)
  /\ run (FormatText "hi" (Some (mkOptions "#0000FF" "#FF000H" ["bold"]))) xterm_term
     = (Next ("hi", Some (HEXERR "#FF000H")),
        set_colorPtr (Some (mkColor 0 0 255)) xterm_term).
Proof.
  assert (H : fst (run (getColor "#0000FF") xterm_term)
              = Next (Some (mkColor 0 0 255), None)) by (vm_compute; reflexivity).
  assert (Hne : "#FF000H" <> "") by discriminate.
  split; [exact H|].
  exact (proj2 (X14_colorPtr_after_failure xterm_term "hi" "#0000FF" "#FF000H" ["bold"]
                  foreground (mkColor 0 0 255) H) eq_refl Hne eq_refl).
Defined.

Lemma X16_error_rendering_witness :
  fst (run (Errors.render "HEXERR" "invalid hex code: FF00") dumb_term)
  = fst (run (Errors.render "HEXERR" "invalid hex code: FF00") dumb_term)
  /\ run (Errors.render "HEXERR" "invalid hex code: FF00") dumb_term
     = (Next "HEXERR: invalid hex code: FF00", dumb_term).
Proof.
  split; [reflexivity|].
  exact (proj2 (X16_error_rendering dumb_term "HEXERR" "invalid hex code: FF00"
                  "invalid hex code: FF00" eq_refl)).
Defined.

End SamplesMore.
